(** * pydantic/plugin/schema_validator.py: the pluggable schema validator

    A shallow embedding of the plugin dispatch layer around pydantic-core's
    [SchemaValidator], and the properties of its callback fan-out, of its
    reentrancy guard and of the way it resolves plugin callbacks.

    Python code runs in the monad [Py]: it threads the process-wide state
    (the class variable [_Plug._in_call], shared by every instance) and
    either returns a value or raises an exception.  The state also carries
    a call log, a ghost trace of what the layer invokes: every step
    construction [step_type(schema, config, plugin_settings)], every
    callback invocation [callback_once( *args )] and every delegated engine
    call [func( *args )]. *)

From stdpp Require Import base option list strings gmap.
From Stdlib Require Import ZArith Lia.

Open Scope string_scope.
Open Scope list_scope.

(** ** Python values, exceptions and outcomes *)

(** The exception classes the module names or can meet.  [RecursionError]
    is what the interpreter raises when the call stack is exhausted. *)
Inductive ExcClass : Type :=
  | ValidationError
  | NotImplementedError
  | AttributeError
  | TypeError
  | KeyError
  | RuntimeError
  | RecursionError
  | ValueError.

Global Instance ExcClass_eq_dec : EqDecision ExcClass.
Proof. solve_decision. Defined.

(** An exception object: its class and an opaque payload (message,
    structured error detail). *)
Record exn : Type := Exc { exc_class : ExcClass; exc_detail : Z }.

Global Instance exn_eq_dec : EqDecision exn.
Proof. solve_decision. Defined.

(** The Python objects that travel through the layer: validation inputs and
    results are opaque data; [on_error] receives the error object.  They
    are values: what a callback may do to a mutable argument is outside
    this model. *)
Inductive pyobj : Type :=
  | PyNone
  | PyData (d : Z)
  | PyError (e : exn).

Global Instance pyobj_eq_dec : EqDecision pyobj.
Proof. solve_decision. Defined.

Inductive outcome (A : Type) : Type :=
  | Ret (a : A)
  | Raise (e : exn).
Arguments Ret {A} a.
Arguments Raise {A} e.

(** The two wrapped methods of a validator. *)
Inductive Method : Type := call_validate_json | call_validate_python.

(** ** Callbacks

    A callback is a bound method of a step object.  [qualname] is its
    [__qualname__]; [body] is what it does when called with the given
    positional arguments.  A body returns, raises, or calls a wrapped
    entry point of one of the validators of the process (by its index in
    the table of validators) and goes on with the outcome of that call.
    Callables without a [__qualname__], and bodies that reach into
    [_Plug._in_call] themselves, are outside this model. *)
Inductive code : Type :=
  | Return (v : pyobj)
  | RaiseExc (e : exn)
  | Validate (validator : nat) (m : Method) (args : list pyobj)
             (k : outcome pyobj -> code).

Record Callback : Type := mkCallback {
  qualname : string;
  body : list pyobj -> code
}.

(** ** The opaque collaborators *)

Definition CoreSchema : Type := Z.
Definition CoreConfig : Type := Z.
Definition Settings : Type := Z.

(** pydantic-core's validator: two pure entry points that return a value
    or raise. *)
Record SchemaValidator : Type := mkSchemaValidator {
  sv_validate_json : list pyobj -> outcome pyobj;
  sv_validate_python : list pyobj -> outcome pyobj
}.

(** A callable with a [__name__]: here a bound method of the engine. *)
Record Func : Type := mkFunc {
  func_name : string;
  func_call : list pyobj -> outcome pyobj
}.

(** A step object, seen through [getattr(on_step, callback_type)]. *)
Record Step : Type := mkStep {
  step_getattr : string -> outcome Callback
}.

(** A step class, seen through its constructor call. *)
Definition StepType : Type :=
  CoreSchema -> option CoreConfig -> option Settings -> outcome Step.

(** A plugin, seen through [getattr(plugin, step)]; [plugin_id] is the
    identity of the object. *)
Record Plugin : Type := mkPlugin {
  plugin_id : nat;
  plugin_getattr : string -> outcome StepType
}.

(** ** State and call log *)

Inductive Event : Type :=
  | EvConstruct (plugin : nat) (step : string)
                (schema : CoreSchema) (config : option CoreConfig)
                (plugin_settings : option Settings)
  | EvCall (callback : Callback) (args : list pyobj)
  | EvEngine (name : string) (args : list pyobj).

Record State : Type := mkState {
  in_call : gset string;
  log : list Event
}.

Definition initial_state : State := mkState ∅ [].

(** ** The monad of Python computations *)

Definition Py (A : Type) : Type := State -> outcome A * State.

Definition ret {A} (a : A) : Py A := fun st => (Ret a, st).

Definition raise {A} (e : exn) : Py A := fun st => (Raise e, st).

Definition bind {A B} (m : Py A) (k : A -> Py B) : Py B :=
  fun st =>
    match m st with
    | (Ret a, st') => k a st'
    | (Raise e, st') => (Raise e, st')
    end.

Declare Scope py_scope.
Delimit Scope py_scope with py.
Notation "x <- m ;; k" := (bind m (fun x => k))
  (at level 100, m at next level, right associativity) : py_scope.
Notation "m ;;; k" := (bind m (fun _ => k))
  (at level 100, right associativity) : py_scope.
Open Scope py_scope.

(** [lift o]: a pure operation that returns or raises. *)
Definition lift {A} (o : outcome A) : Py A := fun st => (o, st).

(** [try: m except classes as e: h e]. *)
Definition try_except {A} (m : Py A) (classes : list ExcClass)
    (h : exn -> Py A) : Py A :=
  fun st =>
    match m st with
    | (Ret a, st') => (Ret a, st')
    | (Raise e, st') =>
        if bool_decide (exc_class e ∈ classes) then h e st' else (Raise e, st')
    end.

(** [with contextlib.suppress( *classes ): m]. *)
Definition suppress (classes : list ExcClass) (m : Py unit) : Py unit :=
  try_except m classes (fun _ => ret tt).

Definition emit (ev : Event) : Py unit :=
  fun st => (Ret tt, mkState (in_call st) (log st ++ [ev])).

(** [key in self._in_call]. *)
Definition in_call_mem (key : string) : Py bool :=
  fun st => (Ret (bool_decide (key ∈ in_call st)), st).

(** [self._in_call.add(key)]. *)
Definition in_call_add (key : string) : Py unit :=
  fun st => (Ret tt, mkState ({[key]} ∪ in_call st) (log st)).

(** [self._in_call.remove(key)]: [set.remove] raises [KeyError] when the
    element is absent. *)
Definition in_call_remove (key : string) : Py unit :=
  fun st =>
    if bool_decide (key ∈ in_call st)
    then (Ret tt, mkState (in_call st ∖ {[key]}) (log st))
    else (Raise (Exc KeyError 0), st).

(** [try: m except classes as e: h e else: els a]; an exception raised by
    the handler or by the [else] block is not caught. *)
Definition try_except_else {A B} (m : Py A) (classes : list ExcClass)
    (h : exn -> Py B) (els : A -> Py B) : Py B :=
  fun st =>
    match m st with
    | (Ret a, st') => els a st'
    | (Raise e, st') =>
        if bool_decide (exc_class e ∈ classes) then h e st' else (Raise e, st')
    end.

(** ** [_Plug]: resolving the callbacks of an entry point *)

(** [_Plug.EVENTS]. *)
Definition EVENTS : gmap string string :=
  <["validate_json" := "on_validate_json"]>
    (<["validate_python" := "on_validate_python"]> ∅).

Record Plug : Type := mkPlug {
  schema : CoreSchema;
  config : option CoreConfig;
  plugins : list Plugin;
  plugin_settings : option Settings
}.

(** [_Plug.__init__]; the set of plugins is a list in iteration order. *)
Definition Plug_init (schema : CoreSchema) (config : option CoreConfig)
    (plugins : option (list Plugin)) (plugin_settings : option Settings) : Plug :=
  mkPlug schema config (default [] plugins) plugin_settings.

(** One turn of the loop of [gather_calls]: the three statements under
    [contextlib.suppress(AttributeError, TypeError)]. *)
Definition gather_one (self : Plug) (step callback_type : string)
    (plugin : Plugin) (calls : list Callback) : Py (list Callback) :=
  try_except
    (step_type <- lift (plugin_getattr plugin step) ;;
     emit (EvConstruct (plugin_id plugin) step
             (schema self) (config self) (plugin_settings self)) ;;;
     on_step <- lift (step_type (schema self) (config self) (plugin_settings self)) ;;
     callback <- lift (step_getattr on_step callback_type) ;;
     ret (calls ++ [callback]))
    [AttributeError; TypeError]
    (fun _ => ret calls).

Fixpoint gather_loop (self : Plug) (step callback_type : string)
    (ps : list Plugin) (calls : list Callback) : Py (list Callback) :=
  match ps with
  | [] => ret calls
  | plugin :: rest =>
      calls' <- gather_one self step callback_type plugin calls ;;
      gather_loop self step callback_type rest calls'
  end.

Definition gather_calls (self : Plug) (func : Func) (callback_type : string)
    : Py (list Callback) :=
  match EVENTS !! func_name func with
  | None => raise (Exc RuntimeError 0)
  | Some step => gather_loop self step callback_type (plugins self) []
  end.

(** The closure that [run_callbacks(calls)] returns is represented by the
    list it captures; [run_callbacks] below is its application. *)
Definition prepare_enter (self : Plug) (func : Func) : Py (list Callback) :=
  gather_calls self func "enter".

Definition prepare_on_success (self : Plug) (func : Func) : Py (list Callback) :=
  gather_calls self func "on_success".

Definition prepare_on_error (self : Plug) (func : Func) : Py (list Callback) :=
  gather_calls self func "on_error".

(** What the closure [wrapper] of [_Plug.__call__] captures. *)
Record Wrapper : Type := mkWrapper {
  w_func : Func;
  enter : list Callback;
  on_success : list Callback;
  on_error : list Callback
}.

(** [_Plug.__call__]. *)
Definition Plug_call (self : Plug) (func : Func) : Py Wrapper :=
  enter <- prepare_enter self func ;;
  on_success <- prepare_on_success self func ;;
  on_error <- prepare_on_error self func ;;
  ret (mkWrapper func enter on_success on_error).

(** ** The reentrancy guard and the dispatcher *)

(** [func( *args )] on the engine. *)
Definition call_func (func : Func) (args : list pyobj) : Py pyobj :=
  emit (EvEngine (func_name func) args) ;;;
  lift (func_call func args).

Section Dispatch.

(** How the body of a callback runs. *)
Variable invoke : Callback -> list pyobj -> Py pyobj.

(** [_Plug.run_once], a generator behind [contextlib.contextmanager]:
    [scope] is the block of the [with] statement, given what the generator
    yields.  An exception of the block is thrown into the generator at its
    [yield]; no handler is there, so it leaves the generator at once. *)
Definition run_once {A} (func : Callback) (scope : option Callback -> Py A)
    : Py A :=
  let _callback_key := qualname func in
  busy <- in_call_mem _callback_key ;;
  if (busy : bool) then
    scope None
  else
    in_call_add _callback_key ;;;
    r <- scope (Some func) ;;
    in_call_remove _callback_key ;;;
    ret r.

(** [callback_once( *args, **kwargs )]. *)
Definition call (callback : Callback) (args : list pyobj) : Py unit :=
  emit (EvCall callback args) ;;;
  invoke callback args ;;;
  ret tt.

(** The closure returned by [_Plug.run_callbacks], applied to [args]. *)
Fixpoint run_callbacks (callbacks : list Callback) (args : list pyobj)
    : Py unit :=
  match callbacks with
  | [] => ret tt
  | callback :: rest =>
      suppress [NotImplementedError]
        (run_once callback (fun callback_once =>
           match callback_once with
           | None => ret tt
           | Some f => call f args
           end)) ;;;
      run_callbacks rest args
  end.

(** The closure [wrapper] of [_Plug.__call__], applied to [args]. *)
Definition wrapper (w : Wrapper) (args : list pyobj) : Py pyobj :=
  run_callbacks (enter w) args ;;;
  try_except_else (call_func (w_func w) args)
    [ValidationError]
    (fun error =>
       run_callbacks (on_error w) [PyError error] ;;;
       raise error)
    (fun result =>
       run_callbacks (on_success w) [result] ;;;
       ret result).

End Dispatch.

(** ** [PluggableSchemaValidator] and the factory *)

Record PluggableSchemaValidator : Type := mkPluggable {
  schema_validator : SchemaValidator;
  plug : Plug;
  validate_json : Wrapper;
  validate_python : Wrapper
}.

Inductive Validator : Type :=
  | Plain (v : SchemaValidator)
  | Pluggable (v : PluggableSchemaValidator).

Definition bound_method (v : SchemaValidator) (m : Method) : Func :=
  match m with
  | call_validate_json => mkFunc "validate_json" (sv_validate_json v)
  | call_validate_python => mkFunc "validate_python" (sv_validate_python v)
  end.

Section Construction.

(** pydantic-core's constructor [SchemaValidator(schema, config)]. *)
Variable new_SchemaValidator :
  CoreSchema -> option CoreConfig -> outcome SchemaValidator.

(** [PluggableSchemaValidator.__init__]. *)
Definition PluggableSchemaValidator_init (schema : CoreSchema)
    (config : option CoreConfig) (plugins : list Plugin)
    (plugin_settings : option Settings) : Py PluggableSchemaValidator :=
  schema_validator <- lift (new_SchemaValidator schema config) ;;
  let plug := Plug_init schema config (Some plugins) plugin_settings in
  validate_json <- Plug_call plug (bound_method schema_validator call_validate_json) ;;
  validate_python <- Plug_call plug (bound_method schema_validator call_validate_python) ;;
  ret (mkPluggable schema_validator plug validate_json validate_python).

(** The plugins that [._loader] has loaded. *)
Variable loaded_plugins : list Plugin.

Definition create_schema_validator (schema : CoreSchema)
    (config : option CoreConfig) (plugin_settings : option Settings)
    : Py Validator :=
  match loaded_plugins with
  | _ :: _ =>
      v <- PluggableSchemaValidator_init schema config loaded_plugins plugin_settings ;;
      ret (Pluggable v)
  | [] =>
      v <- lift (new_SchemaValidator schema config) ;;
      ret (Plain v)
  end.

End Construction.

(** ** Calling a validator, and running callback bodies *)

Definition method_of (v : PluggableSchemaValidator) (m : Method) : Wrapper :=
  match m with
  | call_validate_json => validate_json v
  | call_validate_python => validate_python v
  end.

(** [validator.validate_json( *args )] or [validator.validate_python( *args )]. *)
Definition Validator_call (invoke : Callback -> list pyobj -> Py pyobj)
    (v : Validator) (m : Method) (args : list pyobj) : Py pyobj :=
  match v with
  | Plain sv => call_func (bound_method sv m) args
  | Pluggable p => wrapper invoke (method_of p m) args
  end.

Section Interp.

(** The validators of the process that callback bodies refer to. *)
Variable validators : nat -> Validator.

Fixpoint exec (invoke : Callback -> list pyobj -> Py pyobj) (c : code)
    : Py pyobj :=
  match c with
  | Return v => ret v
  | RaiseExc e => raise e
  | Validate v m args k =>
      fun st =>
        let '(r, st') := Validator_call invoke (validators v) m args st in
        exec invoke (k r) st'
  end.

(** Running a callback with a call stack of depth [depth]. *)
Fixpoint invoke (depth : nat) (callback : Callback) (args : list pyobj)
    : Py pyobj :=
  match depth with
  | 0 => raise (Exc RecursionError 0)
  | S depth' => exec (invoke depth') (body callback args)
  end.

End Interp.

(** ** What an execution may do to the state

    [step_ok st st']: from [st] to [st'] no key in flight was released, the
    log only grew, and what was logged holds no step construction and no
    invocation of a callback whose key was in flight in [st]. *)
Definition quiet (busy : gset string) (ev : Event) : Prop :=
  match ev with
  | EvConstruct _ _ _ _ _ => False
  | EvCall callback _ => qualname callback ∉ busy
  | EvEngine _ _ => True
  end.

Definition step_ok (st st' : State) : Prop :=
  in_call st ⊆ in_call st' ∧
  ∃ new, log st' = log st ++ new ∧ Forall (quiet (in_call st)) new.

Definition preserves {A} (m : Py A) : Prop :=
  ∀ st, step_ok st (snd (m st)).

(** The events that [st'] has logged beyond [st]. *)
Definition logged_since (st st' : State) : list Event :=
  drop (length (log st)) (log st').

Definition is_construct (ev : Event) : bool :=
  match ev with
  | EvConstruct _ _ _ _ _ => true
  | _ => false
  end.

(** The key under which [run_once] tracks a callback. *)
Definition callback_key (func : Callback) : string := qualname func.

(** The state in which the body of [callback] starts when [run_callbacks]
    reaches it in [st] with its key free: key added, call logged. *)
Definition entered (callback : Callback) (args : list pyobj) (st : State)
    : State :=
  mkState ({[qualname callback]} ∪ in_call st) (log st ++ [EvCall callback args]).

(** The state after the scope of [run_once] is left normally from [st]. *)
Definition released (callback : Callback) (st : State) : State :=
  mkState (in_call st ∖ {[qualname callback]}) (log st).

(** The state after [func( *args )] is logged. *)
Definition engine_called (func : Func) (args : list pyobj) (st : State)
    : State :=
  mkState (in_call st) (log st ++ [EvEngine (func_name func) args]).

(** ** The key of a resolved callback *)

(** What one turn of [gather_calls] resolves for [plugin]: the callback,
    or the exception that ends the turn. *)
Definition resolve (self : Plug) (step callback_type : string)
    (plugin : Plugin) : outcome Callback :=
  match plugin_getattr plugin step with
  | Raise e => Raise e
  | Ret step_type =>
      match step_type (schema self) (config self) (plugin_settings self) with
      | Raise e => Raise e
      | Ret on_step => step_getattr on_step callback_type
      end
  end.

(** Whether [contextlib.suppress(AttributeError, TypeError)] swallows [e]. *)
Definition skipped_quietly (e : exn) : bool :=
  bool_decide (exc_class e ∈ [AttributeError; TypeError]).

(** The callbacks that the loop of [gather_calls] collects, as a function of
    the plugins alone. *)
Fixpoint collect (self : Plug) (step callback_type : string)
    (ps : list Plugin) (calls : list Callback) : outcome (list Callback) :=
  match ps with
  | [] => Ret calls
  | plugin :: rest =>
      match resolve self step callback_type plugin with
      | Ret callback => collect self step callback_type rest (calls ++ [callback])
      | Raise e =>
          if skipped_quietly e
          then collect self step callback_type rest calls
          else Raise e
      end
  end.

(** The state after the turn of [plugin]: its constructor call is logged
    when the plugin has the attribute [step]. *)
Definition construct_logged (self : Plug) (step : string) (plugin : Plugin)
    (st : State) : State :=
  match plugin_getattr plugin step with
  | Ret _ =>
      mkState (in_call st)
        (log st ++ [EvConstruct (plugin_id plugin) step
                      (schema self) (config self) (plugin_settings self)])
  | Raise _ => st
  end.

(** The tracking key of the triple (observer [plugin], entry point [func],
    slot [callback_type]): the key of the callback resolved for it. *)
Definition triple_key (self : Plug) (func : Func) (callback_type : string)
    (plugin : Plugin) : option string :=
  match EVENTS !! func_name func with
  | None => None
  | Some step =>
      match resolve self step callback_type plugin with
      | Ret callback => Some (callback_key callback)
      | Raise _ => None
      end
  end.

(** The reading of the data model under which every triple has a key of
    its own. *)
Definition keys_distinct_per_triple (self : Plug) : Prop :=
  ∀ (p1 p2 : Plugin) (f1 f2 : Func) (s1 s2 : string) (k1 k2 : string),
    p1 ∈ plugins self -> p2 ∈ plugins self ->
    (plugin_id p1, func_name f1, s1) ≠ (plugin_id p2, func_name f2, s2) ->
    triple_key self f1 s1 p1 = Some k1 ->
    triple_key self f2 s2 p2 = Some k2 ->
    k1 ≠ k2.

(** The reading under which a wrapped call constructs a step: the call
    logs a construction. *)
Definition constructs_step_per_call
    (invoke : Callback -> list pyobj -> Py pyobj)
    (w : Wrapper) (args : list pyobj) (st : State) : Prop :=
  ∃ ev, ev ∈ logged_since st (snd (wrapper invoke w args st))
        ∧ is_construct ev = true.



(** ** A concrete process: an engine, step classes, plugins, validators *)

Module Scenario.

(** An engine that accepts the single input [5]. *)
Definition accepts_five (args : list pyobj) : outcome pyobj :=
  match args with
  | [PyData 5] => Ret (PyData 5)
  | _ => Raise (Exc ValidationError 1)
  end.

Definition engine : SchemaValidator :=
  mkSchemaValidator accepts_five accepts_five.

Definition new_engine (_ : CoreSchema) (_ : option CoreConfig)
    : outcome SchemaValidator :=
  Ret engine.

(** Bodies: return [None]; raise; validate the same arguments again with
    validator [0] and let its exception through. *)
Definition returns (_ : list pyobj) : code := Return PyNone.

Definition raises (e : exn) (_ : list pyobj) : code := RaiseExc e.

Definition revalidates (args : list pyobj) : code :=
  Validate 0 call_validate_python args
    (fun r => match r with
              | Ret _ => Return PyNone
              | Raise e => RaiseExc e
              end).

(** A step object of the class named [name] with the given three
    methods, and the class, whose constructor takes exactly
    [(schema, config, plugin_settings)]. *)
Definition step_object (name : string)
    (enter_body on_success_body on_error_body : list pyobj -> code)
    : Step :=
  mkStep (fun attr =>
    if decide (attr = "enter")
    then Ret (mkCallback (name +:+ ".enter") enter_body)
    else if decide (attr = "on_success")
    then Ret (mkCallback (name +:+ ".on_success") on_success_body)
    else if decide (attr = "on_error")
    then Ret (mkCallback (name +:+ ".on_error") on_error_body)
    else Raise (Exc AttributeError 0)).

Definition step_class (name : string)
    (enter_body on_success_body on_error_body : list pyobj -> code)
    : StepType :=
  fun _ _ _ => Ret (step_object name enter_body on_success_body on_error_body).

(** A plugin object with the given attributes for the two events. *)
Definition plugin_with (id : nat) (on_json on_python : outcome StepType)
    : Plugin :=
  mkPlugin id (fun attr =>
    if decide (attr = "on_validate_json") then on_json
    else if decide (attr = "on_validate_python") then on_python
    else Raise (Exc AttributeError 0)).

Definition missing {A} : outcome A := Raise (Exc AttributeError 0).

Definition Tracer : StepType := step_class "Tracer" revalidates returns returns.

Definition Partial : StepType :=
  step_class "Partial" (raises (Exc NotImplementedError 0)) returns returns.

Definition Quiet : StepType := step_class "Quiet" returns returns returns.

(** A step class whose constructor wants a fourth argument. *)
Definition Legacy : StepType := fun _ _ _ => Raise (Exc TypeError 4).

Definition tracer_plugin : Plugin := plugin_with 1 missing (Ret Tracer).
Definition tracer_twin : Plugin := plugin_with 2 missing (Ret Tracer).
Definition partial_plugin : Plugin := plugin_with 3 missing (Ret Partial).
Definition quiet_plugin : Plugin := plugin_with 5 (Ret Quiet) (Ret Quiet).
Definition legacy_plugin : Plugin := plugin_with 6 missing (Ret Legacy).

Definition the_plug (plugins : list Plugin) : Plug :=
  Plug_init 7%Z None (Some plugins) None.

(** The validator that the factory builds when [plugins] are loaded. *)
Definition validator_of (plugins : list Plugin) : Validator :=
  match fst (create_schema_validator new_engine plugins 7%Z None None
               initial_state) with
  | Ret v => v
  | Raise _ => Plain engine
  end.

Definition python_wrapper (plugins : list Plugin) : Wrapper :=
  match validator_of plugins with
  | Pluggable v => validate_python v
  | Plain sv =>
      mkWrapper (bound_method sv call_validate_python) [] [] []
  end.

(** Running callbacks in a process whose validator [0] (and every other)
    is [validator_of plugins], with a call stack of depth 8. *)
Definition run (plugins : list Plugin) : Callback -> list pyobj -> Py pyobj :=
  invoke (fun _ => validator_of plugins) 8.

Definition tracer_enter : Callback := mkCallback "Tracer.enter" revalidates.
Definition partial_enter : Callback :=
  mkCallback "Partial.enter" (raises (Exc NotImplementedError 0)).
Definition strict_enter : Callback :=
  mkCallback "Strict.enter" (raises (Exc ValueError 2)).
Definition quiet_enter : Callback := mkCallback "Quiet.enter" returns.
Definition quiet_on_error : Callback := mkCallback "Quiet.on_error" returns.
Definition tracer_on_success : Callback :=
  mkCallback "Tracer.on_success" returns.
Definition partial_on_success : Callback :=
  mkCallback "Partial.on_success" returns.

Definition tracer_step : Step := step_object "Tracer" revalidates returns returns.

(** The bound method [validate_python] of the engine. *)
Definition engine_python : Func := bound_method engine call_validate_python.

End Scenario.

(** ** What a built validator holds, and what its callbacks may be *)

(** The callbacks that the turns of the plugins [ps] resolve to, in
    iteration order. *)
Definition resolved (self : Plug) (step callback_type : string)
    (ps : list Plugin) : list Callback :=
  omap (fun plugin =>
          match resolve self step callback_type plugin with
          | Ret callback => Some callback
          | Raise _ => None
          end) ps.

(** The constructor calls that one [gather_calls] logs over [ps]: one for
    each plugin that has the attribute [step]. *)
Definition constructions (self : Plug) (step : string) (ps : list Plugin)
    : list Event :=
  omap (fun plugin =>
          match plugin_getattr plugin step with
          | Ret _ =>
              Some (EvConstruct (plugin_id plugin) step
                      (schema self) (config self) (plugin_settings self))
          | Raise _ => None
          end) ps.

(** [st] with [new] appended to its log. *)
Definition logged (new : list Event) (st : State) : State :=
  mkState (in_call st) (log st ++ new).

(** Every callback that a method of a validator can invoke. *)
Definition callbacks_of (v : Validator) (m : Method) : list Callback :=
  match v with
  | Plain _ => []
  | Pluggable p =>
      enter (method_of p m) ++ on_success (method_of p m)
        ++ on_error (method_of p m)
  end.

(** The keys of all the callbacks of the process lie in [keys]. *)
Definition keys_within (keys : gset string) (validators : nat -> Validator)
    : Prop :=
  ∀ v m cb, cb ∈ callbacks_of (validators v) m -> qualname cb ∈ keys.

(** A callback whose body returns and leaves the state alone. *)
Definition returns_quietly (invoke : Callback -> list pyobj -> Py pyobj)
    (callback : Callback) : Prop :=
  ∀ args st, ∃ v, invoke callback args st = (Ret v, st).

(** The invocations of [callbacks] with [args], in order. *)
Definition calls_of (callbacks : list Callback) (args : list pyobj)
    : list Event :=
  map (fun callback => EvCall callback args) callbacks.

(** ** More of the concrete process *)

Module Cases.

(** A method of the engine that [_Plug.EVENTS] does not list. *)
Definition engine_assignment : Func :=
  mkFunc "validate_assignment" Scenario.accepts_five.

(** A step class whose constructor raises [ValueError]. *)
Definition Broken : StepType := fun _ _ _ => Raise (Exc ValueError 5).

Definition broken_plugin : Plugin :=
  Scenario.plugin_with 7 Scenario.missing (Ret Broken).

(** A step object with an [on_success] method and nothing else. *)
Definition success_only_step : Step :=
  mkStep (fun attr =>
    if decide (attr = "on_success")
    then Ret (mkCallback "Audit.on_success" Scenario.returns)
    else Raise (Exc AttributeError 0)).

Definition success_only_plugin : Plugin :=
  Scenario.plugin_with 8 Scenario.missing (Ret (fun _ _ _ => Ret success_only_step)).

Definition audit_on_success : Callback :=
  mkCallback "Audit.on_success" Scenario.returns.

Definition quiet_on_success : Callback :=
  mkCallback "Quiet.on_success" Scenario.returns.

Definition tracer_on_error : Callback :=
  mkCallback "Tracer.on_error" Scenario.returns.

(** The keys of the callbacks of [Tracer]. *)
Definition tracer_keys : gset string :=
  {["Tracer.enter"; "Tracer.on_success"; "Tracer.on_error"]}.

(** A step object with an [on_error] method and nothing else. *)
Definition error_only_step : Step :=
  mkStep (fun attr =>
    if decide (attr = "on_error")
    then Ret (mkCallback "Alarm.on_error" Scenario.returns)
    else Raise (Exc AttributeError 0)).

Definition error_only_plugin : Plugin :=
  Scenario.plugin_with 9 Scenario.missing (Ret (fun _ _ _ => Ret error_only_step)).

Definition alarm_on_error : Callback :=
  mkCallback "Alarm.on_error" Scenario.returns.





(** An engine whose constructor rejects every schema. *)
Definition rejecting_engine (_ : CoreSchema) (_ : option CoreConfig)
    : outcome SchemaValidator :=
  Raise (Exc ValueError 9).

(** The validator built from the one plugin [tracer_plugin], which has no
    step for [validate_json]. *)
Definition tracer_validator : PluggableSchemaValidator :=
  mkPluggable Scenario.engine
    (mkPlug 7%Z None [Scenario.tracer_plugin] None)
    (mkWrapper (bound_method Scenario.engine call_validate_json) [] [] [])
    (mkWrapper Scenario.engine_python [Scenario.tracer_enter]
       [Scenario.tracer_on_success] [tracer_on_error]).

End Cases.

(** * Properties *)

(** ** The dispatcher, one callback at a time *)

Section DispatchFacts.

Variable invoke : Callback -> list pyobj -> Py pyobj.

Lemma run_callbacks_nil args st :
  run_callbacks invoke [] args st = (Ret tt, st).
Proof. reflexivity. Qed.

(** The key is in flight: the guard yields [None], the loop goes on. *)
Lemma run_callbacks_cons_busy callback rest args st :
  qualname callback ∈ in_call st ->
  run_callbacks invoke (callback :: rest) args st
  = run_callbacks invoke rest args st.
Proof.
  intros Hin. cbn [run_callbacks].
  unfold bind at 1, suppress, try_except, run_once, bind, in_call_mem.
  rewrite bool_decide_eq_true_2 by exact Hin. reflexivity.
Qed.

(** The key is free: it is added, the callback runs, and what follows
    depends on how the body ends. *)
Lemma run_callbacks_cons_free callback rest args st :
  qualname callback ∉ in_call st ->
  run_callbacks invoke (callback :: rest) args st
  = match invoke callback args (entered callback args st) with
    | (Ret _, st2) =>
        if bool_decide (qualname callback ∈ in_call st2)
        then run_callbacks invoke rest args (released callback st2)
        else (Raise (Exc KeyError 0), st2)
    | (Raise e, st2) =>
        if bool_decide (exc_class e = NotImplementedError)
        then run_callbacks invoke rest args st2
        else (Raise e, st2)
    end.
Proof.
  intros Hout. cbn [run_callbacks].
  unfold bind at 1, suppress, try_except, run_once, bind, in_call_mem,
    in_call_add, call, bind, emit, in_call_remove, ret, entered, released.
  rewrite bool_decide_eq_false_2 by exact Hout. cbn [in_call log].
  destruct (invoke callback args _) as [[v|e] st2]; cbn [in_call log].
  - destruct (bool_decide (qualname callback ∈ in_call st2)); reflexivity.
  - destruct (decide (exc_class e = NotImplementedError)) as [Heq|Hne].
    + rewrite (bool_decide_eq_true_2 _ Heq).
      rewrite bool_decide_eq_true_2 by (by apply list_elem_of_singleton).
      reflexivity.
    + rewrite (bool_decide_eq_false_2 _ Hne).
      rewrite bool_decide_eq_false_2 by (by rewrite list_elem_of_singleton).
      reflexivity.
Qed.

Lemma run_callbacks_app l1 l2 args st :
  run_callbacks invoke (l1 ++ l2) args st
  = match run_callbacks invoke l1 args st with
    | (Ret _, st1) => run_callbacks invoke l2 args st1
    | (Raise e, st1) => (Raise e, st1)
    end.
Proof.
  revert st. induction l1 as [|callback l1 IH]; intros st.
  - reflexivity.
  - cbn [app run_callbacks]. unfold bind.
    destruct (suppress _ _ st) as [[[]|e] st1]; [apply IH | reflexivity].
Qed.

(** The three ways out of [wrapper] once the [enter] phase is over. *)
Lemma wrapper_enter_raise w args st e st1 :
  run_callbacks invoke (enter w) args st = (Raise e, st1) ->
  wrapper invoke w args st = (Raise e, st1).
Proof. intros H. unfold wrapper, bind. rewrite H. reflexivity. Qed.

Lemma wrapper_success w args st st1 result :
  run_callbacks invoke (enter w) args st = (Ret tt, st1) ->
  func_call (w_func w) args = Ret result ->
  wrapper invoke w args st
  = match run_callbacks invoke (on_success w) [result]
            (engine_called (w_func w) args st1) with
    | (Ret _, st3) => (Ret result, st3)
    | (Raise e, st3) => (Raise e, st3)
    end.
Proof.
  intros H1 H2. unfold wrapper, bind at 1. rewrite H1.
  unfold try_except_else, call_func, bind at 1, emit, lift. rewrite H2.
  unfold bind, ret, engine_called.
  destruct (run_callbacks _ _ _ _) as [[[]|e] st3]; reflexivity.
Qed.

Lemma wrapper_validation_error w args st st1 error :
  run_callbacks invoke (enter w) args st = (Ret tt, st1) ->
  func_call (w_func w) args = Raise error ->
  exc_class error = ValidationError ->
  wrapper invoke w args st
  = match run_callbacks invoke (on_error w) [PyError error]
            (engine_called (w_func w) args st1) with
    | (Ret _, st3) => (Raise error, st3)
    | (Raise e, st3) => (Raise e, st3)
    end.
Proof.
  intros H1 H2 H3. unfold wrapper, bind at 1. rewrite H1.
  unfold try_except_else, call_func, bind at 1, emit, lift. rewrite H2.
  rewrite bool_decide_eq_true_2 by (by apply list_elem_of_singleton).
  unfold bind, raise, engine_called.
  destruct (run_callbacks _ _ _ _) as [[[]|e] st3]; reflexivity.
Qed.


End DispatchFacts.

(** ** Keys in flight are never released by anything nested *)

Lemma quiet_anti (busy busy' : gset string) ev :
  busy ⊆ busy' -> quiet busy' ev -> quiet busy ev.
Proof. destruct ev; cbn; [tauto | set_solver | tauto]. Qed.

Lemma step_ok_refl st : step_ok st st.
Proof.
  split; [reflexivity|]. exists []. split; [by rewrite app_nil_r | constructor].
Qed.

Lemma step_ok_trans st1 st2 st3 :
  step_ok st1 st2 -> step_ok st2 st3 -> step_ok st1 st3.
Proof.
  intros [Hsub1 (n1 & Hlog1 & Hq1)] [Hsub2 (n2 & Hlog2 & Hq2)]. split.
  - etransitivity; eassumption.
  - exists (n1 ++ n2). split.
    + by rewrite Hlog2, Hlog1, app_assoc.
    + apply Forall_app. split; [exact Hq1|].
      eapply Forall_impl; [exact Hq2|]. intros ev. by apply quiet_anti.
Qed.

Lemma step_ok_entered callback args st :
  qualname callback ∉ in_call st -> step_ok st (entered callback args st).
Proof.
  intros Hout. split; cbn; [set_solver|].
  exists [EvCall callback args]. split; [reflexivity|].
  constructor; [exact Hout | constructor].
Qed.

Lemma step_ok_released callback st st2 :
  qualname callback ∉ in_call st ->
  step_ok st st2 -> step_ok st (released callback st2).
Proof.
  intros Hout [Hsub Hlog]. split; cbn; [|exact Hlog].
  intros key Hkey. apply elem_of_difference. split; [by apply Hsub|].
  rewrite elem_of_singleton. by intros ->.
Qed.


Lemma step_ok_engine_called func args st :
  step_ok st (engine_called func args st).
Proof.
  split; cbn; [reflexivity|].
  exists [EvEngine (func_name func) args]. split; [reflexivity|].
  constructor; [exact I | constructor].
Qed.

Lemma preserves_ret {A} (a : A) : preserves (ret a).
Proof. intros st. apply step_ok_refl. Qed.

Lemma preserves_raise {A} e : preserves (@raise A e).
Proof. intros st. apply step_ok_refl. Qed.

Lemma preserves_lift {A} (o : outcome A) : preserves (lift o).
Proof. intros st. apply step_ok_refl. Qed.

Lemma preserves_bind {A B} (m : Py A) (k : A -> Py B) :
  preserves m -> (∀ a, preserves (k a)) -> preserves (bind m k).
Proof.
  intros Hm Hk st. unfold bind. specialize (Hm st).
  destruct (m st) as [[a|e] st1]; cbn in *; [|exact Hm].
  eapply step_ok_trans; [exact Hm | apply Hk].
Qed.

Lemma preserves_try_except_else {A B} (m : Py A) classes
    (h : exn -> Py B) (els : A -> Py B) :
  preserves m -> (∀ e, preserves (h e)) -> (∀ a, preserves (els a)) ->
  preserves (try_except_else m classes h els).
Proof.
  intros Hm Hh Hels st. unfold try_except_else. specialize (Hm st).
  destruct (m st) as [[a|e] st1]; cbn in *.
  - eapply step_ok_trans; [exact Hm | apply Hels].
  - destruct (bool_decide _); [|exact Hm].
    eapply step_ok_trans; [exact Hm | apply Hh].
Qed.

Lemma preserves_call_func func args : preserves (call_func func args).
Proof.
  intros st. unfold call_func, bind, emit, lift. cbn.
  apply (step_ok_engine_called func args st).
Qed.

Section Preservation.

Variable invoke : Callback -> list pyobj -> Py pyobj.
Hypothesis invoke_preserves : ∀ callback args, preserves (invoke callback args).

Lemma preserves_run_callbacks callbacks args :
  preserves (run_callbacks invoke callbacks args).
Proof.
  induction callbacks as [|callback rest IH]; intros st.
  - apply step_ok_refl.
  - destruct (decide (qualname callback ∈ in_call st)) as [Hin|Hout].
    + rewrite run_callbacks_cons_busy by exact Hin. apply IH.
    + rewrite run_callbacks_cons_free by exact Hout.
      pose proof (invoke_preserves callback args (entered callback args st)) as Hbody.
      assert (step_ok st (snd (invoke callback args (entered callback args st))))
        as Hst2.
      { eapply step_ok_trans; [by apply step_ok_entered | exact Hbody]. }
      clear Hbody.
      destruct (invoke callback args _) as [[v|e] st2]; cbn [snd] in Hst2.
      * destruct (bool_decide _); [|exact Hst2].
        eapply step_ok_trans; [by apply step_ok_released | apply IH].
      * destruct (bool_decide _); [|exact Hst2].
        eapply step_ok_trans; [exact Hst2 | apply IH].
Qed.

Lemma preserves_wrapper w args : preserves (wrapper invoke w args).
Proof.
  unfold wrapper. apply preserves_bind; [apply preserves_run_callbacks|].
  intros _. apply preserves_try_except_else.
  - apply preserves_call_func.
  - intros e. apply preserves_bind; [apply preserves_run_callbacks|].
    intros _. apply preserves_raise.
  - intros a. apply preserves_bind; [apply preserves_run_callbacks|].
    intros _. apply preserves_ret.
Qed.

Lemma preserves_Validator_call v m args :
  preserves (Validator_call invoke v m args).
Proof.
  destruct v; cbn; [apply preserves_call_func | apply preserves_wrapper].
Qed.

Lemma preserves_exec validators c : preserves (exec validators invoke c).
Proof.
  induction c as [v|e|v m args k IH]; cbn [exec].
  - apply preserves_ret.
  - apply preserves_raise.
  - intros st.
    pose proof (preserves_Validator_call (validators v) m args st) as H1.
    destruct (Validator_call _ _ _ _ st) as [r st1]; cbn [snd] in H1.
    eapply step_ok_trans; [exact H1 | apply IH].
Qed.

End Preservation.

Lemma preserves_invoke validators depth callback args :
  preserves (invoke validators depth callback args).
Proof.
  revert callback args. induction depth as [|depth IH]; intros callback args.
  - apply preserves_raise.
  - cbn [invoke]. apply preserves_exec. exact IH.
Qed.

(** ** Skips and failures inside one phase *)

(** C10.  When [run_callbacks] reaches a callback whose key is already in
    flight, the guard yields [None] and only that callback is skipped: the
    phase goes on with the remaining callbacks from the very same state,
    and the skip itself returns normally without touching the state, so
    neither the phase nor the wrapped call is aborted by it. *)
Theorem reentrancy_skip_continues
    (invoke : Callback -> list pyobj -> Py pyobj)
    (pre : list Callback) (callback : Callback) (post : list Callback)
    (args : list pyobj) (st st1 : State) :
  run_callbacks invoke pre args st = (Ret tt, st1) ->
  qualname callback ∈ in_call st1 ->
  run_callbacks invoke (pre ++ callback :: post) args st
  = run_callbacks invoke post args st1
  ∧ run_callbacks invoke [callback] args st1 = (Ret tt, st1)
  ∧ ∀ w, enter w = pre ++ callback :: post ->
      wrapper invoke w args st
      = wrapper invoke (mkWrapper (w_func w) (pre ++ post) (on_success w) (on_error w))
          args st.
Proof.
  intros Hpre Hbusy.
  assert (run_callbacks invoke (pre ++ callback :: post) args st
          = run_callbacks invoke post args st1) as Hskip.
  { rewrite run_callbacks_app, Hpre. by apply run_callbacks_cons_busy. }
  split; [exact Hskip|]. split.
  - by rewrite run_callbacks_cons_busy.
  - intros w Hw. unfold wrapper, bind. cbn [enter w_func on_success on_error].
    rewrite Hw, Hskip, run_callbacks_app, Hpre. reflexivity.
Qed.

(** C8.  A callback that is invoked and whose body raises anything but
    [NotImplementedError] is not swallowed: the phase raises that exception
    in the state the body left, so the remaining callbacks of the phase are
    not run, and the wrapped entry point raises it too, whichever of its
    three phases the callback belongs to. *)
Theorem callback_failure_propagates
    (invoke : Callback -> list pyobj -> Py pyobj)
    (pre : list Callback) (callback : Callback) (post : list Callback)
    (args : list pyobj) (st st1 st2 : State) (e : exn) :
  run_callbacks invoke pre args st = (Ret tt, st1) ->
  qualname callback ∉ in_call st1 ->
  invoke callback args (entered callback args st1) = (Raise e, st2) ->
  exc_class e ≠ NotImplementedError ->
  run_callbacks invoke (pre ++ callback :: post) args st = (Raise e, st2)
  ∧ (∀ w, enter w = pre ++ callback :: post ->
       wrapper invoke w args st = (Raise e, st2))
  ∧ (∀ w args0 st0 st0' result,
       run_callbacks invoke (enter w) args0 st0 = (Ret tt, st0') ->
       func_call (w_func w) args0 = Ret result ->
       args = [result] -> st = engine_called (w_func w) args0 st0' ->
       on_success w = pre ++ callback :: post ->
       wrapper invoke w args0 st0 = (Raise e, st2))
  ∧ (∀ w args0 st0 st0' error,
       run_callbacks invoke (enter w) args0 st0 = (Ret tt, st0') ->
       func_call (w_func w) args0 = Raise error ->
       exc_class error = ValidationError ->
       args = [PyError error] -> st = engine_called (w_func w) args0 st0' ->
       on_error w = pre ++ callback :: post ->
       wrapper invoke w args0 st0 = (Raise e, st2)).
Proof.
  intros Hpre Hfree Hbody Hne.
  assert (run_callbacks invoke (pre ++ callback :: post) args st = (Raise e, st2))
    as Hphase.
  { rewrite run_callbacks_app, Hpre, run_callbacks_cons_free, Hbody by exact Hfree.
    by rewrite bool_decide_eq_false_2. }
  split; [exact Hphase|]. split; [|split].
  - intros w Hw. apply wrapper_enter_raise. by rewrite Hw.
  - intros w args0 st0 st0' result Henter Hfunc -> -> Hw.
    rewrite (wrapper_success _ _ _ _ _ _ Henter Hfunc), Hw, Hphase. reflexivity.
  - intros w args0 st0 st0' error Henter Hfunc Hclass -> -> Hw.
    rewrite (wrapper_validation_error _ _ _ _ _ _ Henter Hfunc Hclass), Hw, Hphase.
    reflexivity.
Qed.

(** ** Which callbacks a phase has invoked *)

Section Invoked.

Variable invoke : Callback -> list pyobj -> Py pyobj.
Hypothesis invoke_preserves : ∀ callback args, preserves (invoke callback args).


(** What a wrapped call logs holds no step construction. *)
Lemma wrapper_logs_no_construct w args st :
  Forall (fun ev => is_construct ev = false)
    (logged_since st (snd (wrapper invoke w args st))).
Proof.
  destruct (preserves_wrapper invoke invoke_preserves w args st)
    as [_ (new & Hlog & Hq)].
  unfold logged_since. rewrite Hlog, drop_app_length.
  eapply Forall_impl; [exact Hq|]. intros [] Hev; done.
Qed.

End Invoked.

(** ** The wrapped entry point and the outcome of the engine *)



(** ** Reentrancy *)


(** ** What a raising callback leaves behind *)

(** [NotImplementedError] is swallowed: the phase goes on with the
    remaining callbacks, from the state the body left. *)
Lemma not_implemented_is_swallowed
    (invoke : Callback -> list pyobj -> Py pyobj)
    (pre : list Callback) (callback : Callback) (post : list Callback)
    (args : list pyobj) (st st1 st2 : State) (e : exn) :
  run_callbacks invoke pre args st = (Ret tt, st1) ->
  qualname callback ∉ in_call st1 ->
  invoke callback args (entered callback args st1) = (Raise e, st2) ->
  exc_class e = NotImplementedError ->
  run_callbacks invoke (pre ++ callback :: post) args st
  = run_callbacks invoke post args st2.
Proof.
  intros Hpre Hfree Hbody Hclass.
  rewrite run_callbacks_app, Hpre, run_callbacks_cons_free, Hbody by exact Hfree.
  by rewrite bool_decide_eq_true_2.
Qed.

(** Whatever the body raises, the scope of [run_once] is left without
    removing the key: it is still in flight when the phase is over. *)
Lemma key_kept_when_body_raises
    (validators : nat -> Validator) (depth : nat)
    (callback : Callback) (rest : list Callback) (args : list pyobj)
    (st st2 : State) (e : exn) :
  qualname callback ∉ in_call st ->
  invoke validators depth callback args (entered callback args st) = (Raise e, st2) ->
  qualname callback ∈
    in_call (snd (run_callbacks (invoke validators depth) (callback :: rest) args st)).
Proof.
  intros Hfree Hbody.
  pose proof (preserves_invoke validators depth callback args
                (entered callback args st)) as [Hsub _].
  rewrite Hbody in Hsub. cbn [snd] in Hsub.
  assert (qualname callback ∈ in_call st2) as Hin.
  { apply Hsub. unfold entered. cbn [in_call]. apply elem_of_union. left.
    by apply elem_of_singleton. }
  rewrite run_callbacks_cons_free, Hbody by exact Hfree.
  destruct (bool_decide _); [|exact Hin].
  pose proof (preserves_run_callbacks _ (preserves_invoke validators depth)
                rest args st2) as [Hsub2 _].
  by apply Hsub2.
Qed.

(** ** Resolving callbacks: [gather_calls] *)

Lemma gather_one_eq self step callback_type plugin calls st :
  gather_one self step callback_type plugin calls st
  = (match resolve self step callback_type plugin with
     | Ret callback => Ret (calls ++ [callback])
     | Raise e => if skipped_quietly e then Ret calls else Raise e
     end,
     construct_logged self step plugin st).
Proof.
  unfold gather_one, try_except, try_except_else, bind, lift, emit, ret,
    resolve, construct_logged, skipped_quietly.
  destruct (plugin_getattr plugin step) as [step_type|e]; cbn.
  - destruct (step_type _ _ _) as [on_step|e]; cbn.
    + destruct (step_getattr on_step callback_type) as [cb|e]; cbn; [done|].
      by destruct (bool_decide _).
    + by destruct (bool_decide _).
  - by destruct (bool_decide _).
Qed.

Lemma gather_loop_fst self step callback_type ps calls st :
  fst (gather_loop self step callback_type ps calls st)
  = collect self step callback_type ps calls.
Proof.
  revert calls st. induction ps as [|plugin rest IH]; intros calls st.
  - reflexivity.
  - cbn [gather_loop collect]. unfold bind. rewrite gather_one_eq.
    destruct (resolve self step callback_type plugin) as [cb|e].
    + apply IH.
    + destruct (skipped_quietly e); [apply IH | reflexivity].
Qed.

(** The loop leaves the keys in flight alone and logs constructions only:
    one for every plugin that has the attribute, when the loop completes. *)
Lemma gather_loop_log self step callback_type ps calls st r st' :
  gather_loop self step callback_type ps calls st = (r, st') ->
  in_call st' = in_call st
  ∧ ∃ new, log st' = log st ++ new
      ∧ Forall (fun ev => is_construct ev = true) new
      ∧ ∀ calls', r = Ret calls' ->
          ∀ plugin, plugin ∈ ps -> (∃ t, plugin_getattr plugin step = Ret t) ->
            EvConstruct (plugin_id plugin) step
              (schema self) (config self) (plugin_settings self) ∈ new.
Proof.
  revert calls st. induction ps as [|plugin rest IH]; intros calls st Hrun.
  - injection Hrun as <- <-. split; [done|]. exists [].
    split; [by rewrite app_nil_r|]. split; [constructor|].
    intros calls' _ plugin Hin. by apply not_elem_of_nil in Hin.
  - cbn [gather_loop] in Hrun. unfold bind in Hrun. rewrite gather_one_eq in Hrun.
    assert (in_call (construct_logged self step plugin st) = in_call st
            ∧ ∃ n1, log (construct_logged self step plugin st) = log st ++ n1
                ∧ Forall (fun ev => is_construct ev = true) n1
                ∧ ((∃ t, plugin_getattr plugin step = Ret t) ->
                   EvConstruct (plugin_id plugin) step
                     (schema self) (config self) (plugin_settings self) ∈ n1))
      as (Hin1 & n1 & Hlog1 & Hc1 & Hev1).
    { unfold construct_logged.
      destruct (plugin_getattr plugin step) as [t|e]; cbn.
      - split; [done|]. eexists. split; [reflexivity|].
        split; [by repeat constructor | intros _; left].
      - split; [done|]. exists []. split; [by rewrite app_nil_r|].
        split; [constructor | by intros [t Ht]]. }
    assert (∀ calls1,
      gather_loop self step callback_type rest calls1
        (construct_logged self step plugin st) = (r, st') ->
      in_call st' = in_call st
      ∧ ∃ new, log st' = log st ++ new
          ∧ Forall (fun ev => is_construct ev = true) new
          ∧ ∀ calls', r = Ret calls' ->
              ∀ q, q ∈ plugin :: rest -> (∃ t, plugin_getattr q step = Ret t) ->
                EvConstruct (plugin_id q) step
                  (schema self) (config self) (plugin_settings self) ∈ new)
      as Hstep.
    { intros calls1 Hrest.
      destruct (IH _ _ Hrest) as (Hin2 & n2 & Hlog2 & Hc2 & Hev2).
      split; [by rewrite Hin2|]. exists (n1 ++ n2).
      split; [by rewrite Hlog2, Hlog1, app_assoc|].
      split; [by apply Forall_app|].
      intros calls' Hr q [->|Hq]%elem_of_cons Ht; apply elem_of_app.
      - left. by apply Hev1.
      - right. by eapply Hev2. }
    destruct (resolve self step callback_type plugin) as [cb|e].
    + by eapply Hstep.
    + destruct (skipped_quietly e); [by eapply Hstep|].
      injection Hrun as <- <-. split; [exact Hin1|]. exists n1.
      split; [exact Hlog1|]. split; [exact Hc1|]. intros calls' Hr. discriminate Hr.
Qed.

(** What was collected before a turn is kept, and every plugin that
    resolves to a callback contributes it. *)
Lemma collect_mem self step callback_type ps calls calls' :
  collect self step callback_type ps calls = Ret calls' ->
  (∀ cb, cb ∈ calls -> cb ∈ calls')
  ∧ ∀ plugin cb, plugin ∈ ps ->
      resolve self step callback_type plugin = Ret cb -> cb ∈ calls'.
Proof.
  revert calls. induction ps as [|plugin rest IH]; intros calls Hc.
  - injection Hc as <-. split; [done|]. intros q cb Hq. by apply not_elem_of_nil in Hq.
  - cbn [collect] in Hc.
    destruct (resolve self step callback_type plugin) as [cb0|e] eqn:Hres.
    + destruct (IH _ Hc) as [Hkeep Hall]. split.
      * intros cb Hcb. apply Hkeep, elem_of_app. by left.
      * intros q cb [->|Hq]%elem_of_cons Hq'.
        -- rewrite Hres in Hq'. injection Hq' as <-.
           apply Hkeep, elem_of_app. right. left.
        -- by eapply Hall.
    + destruct (skipped_quietly e); [|discriminate Hc].
      destruct (IH _ Hc) as [Hkeep Hall]. split; [exact Hkeep|].
      intros q cb [->|Hq]%elem_of_cons Hq'; [congruence | by eapply Hall].
Qed.



Lemma gather_calls_fst self func callback_type st :
  fst (gather_calls self func callback_type st)
  = match EVENTS !! func_name func with
    | None => Raise (Exc RuntimeError 0)
    | Some step => collect self step callback_type (plugins self) []
    end.
Proof.
  unfold gather_calls. destruct (EVENTS !! func_name func); [|done].
  apply gather_loop_fst.
Qed.



(** ** The factory *)

(** C6.  With no plugin loaded, [create_schema_validator] returns what the
    engine's constructor returns, so calling either entry point of the
    result is calling the engine: same value or same exception, and the
    same effect on the state.  The wrapper with an empty set of plugins is
    transparent in the same way. *)
Theorem no_plugins_is_bare_engine
    (new_SchemaValidator : CoreSchema -> option CoreConfig -> outcome SchemaValidator)
    (schema : CoreSchema) (config : option CoreConfig)
    (plugin_settings : option Settings) (st : State) :
  match new_SchemaValidator schema config with
  | Raise e =>
      create_schema_validator new_SchemaValidator [] schema config
        plugin_settings st = (Raise e, st)
  | Ret sv =>
      ∃ v,
        create_schema_validator new_SchemaValidator [] schema config
          plugin_settings st = (Ret v, st)
        ∧ v = Plain sv
        ∧ (∀ invoke m args st',
             Validator_call invoke v m args st'
             = call_func (bound_method sv m) args st')
        ∧ (∀ invoke args st',
             fst (Validator_call invoke v call_validate_json args st')
             = sv_validate_json sv args
             ∧ fst (Validator_call invoke v call_validate_python args st')
               = sv_validate_python sv args)
        ∧ ∃ p,
            PluggableSchemaValidator_init new_SchemaValidator schema config []
              plugin_settings st = (Ret p, st)
            ∧ ∀ invoke m args st',
                Validator_call invoke (Pluggable p) m args st'
                = call_func (bound_method sv m) args st'
  end.
Proof.
  unfold create_schema_validator, PluggableSchemaValidator_init, bind, lift.
  destruct (new_SchemaValidator schema config) as [sv|e]; [|reflexivity].
  exists (Plain sv). split; [reflexivity|]. split; [reflexivity|].
  split; [reflexivity|]. split.
  - intros invoke args st'. split; reflexivity.
  - eexists. split; [reflexivity|].
    intros invoke m args st'. destruct m; cbn.
    all: unfold wrapper, bind, try_except_else, call_func, bind, emit, lift; cbn.
    all: match goal with
         | |- context [match ?o with Ret _ => _ | Raise _ => _ end] =>
             destruct o as [r|e]
         end; [reflexivity|].
    all: by destruct (bool_decide _).
Qed.

(** ** When steps are constructed *)

Lemma logged_since_app st st' new :
  log st' = log st ++ new -> logged_since st st' = new.
Proof. intros H. unfold logged_since. by rewrite H, drop_app_length. Qed.

Lemma gather_calls_resolved self func step callback_type plugin step_type
    on_step st calls st1 :
  EVENTS !! func_name func = Some step ->
  plugin ∈ plugins self ->
  plugin_getattr plugin step = Ret step_type ->
  step_type (schema self) (config self) (plugin_settings self) = Ret on_step ->
  gather_calls self func callback_type st = (Ret calls, st1) ->
  EvConstruct (plugin_id plugin) step
    (schema self) (config self) (plugin_settings self) ∈ logged_since st st1
  ∧ ∀ cb, step_getattr on_step callback_type = Ret cb -> cb ∈ calls.
Proof.
  intros Hstep Hin Hattr Hctor Hrun. split.
  - unfold gather_calls in Hrun. rewrite Hstep in Hrun.
    destruct (gather_loop_log _ _ _ _ _ _ _ _ Hrun) as (_ & new & Hlog & _ & Hev).
    rewrite (logged_since_app _ _ _ Hlog). eapply Hev; eauto.
  - intros cb Hcb.
    pose proof (gather_calls_fst self func callback_type st) as Hfst.
    rewrite Hrun, Hstep in Hfst. cbn [fst] in Hfst. symmetry in Hfst.
    apply collect_mem in Hfst as [_ Hall]. apply (Hall plugin); [exact Hin|].
    unfold resolve. by rewrite Hattr, Hctor.
Qed.

(** C7, as the code has it.  For an observer that implements the event of
    the entry point, the steps are constructed when the entry point is
    wrapped, once by each of the three [gather_calls], by calling the
    factory with the schema, the config and the settings and nothing else;
    the callback of each slot is taken from such a step.  A wrapped call
    constructs no step. *)
Theorem steps_built_when_wrapped
    (validators : nat -> Validator) (depth : nat)
    (self : Plug) (func : Func) (step : string) (plugin : Plugin)
    (step_type : StepType) (on_step : Step) (st st' : State) (w : Wrapper)
    (args : list pyobj) (st0 : State) :
  EVENTS !! func_name func = Some step ->
  plugin ∈ plugins self ->
  plugin_getattr plugin step = Ret step_type ->
  step_type (schema self) (config self) (plugin_settings self) = Ret on_step ->
  Plug_call self func st = (Ret w, st') ->
  (∃ st1 st2,
     gather_calls self func "enter" st = (Ret (enter w), st1)
     ∧ gather_calls self func "on_success" st1 = (Ret (on_success w), st2)
     ∧ gather_calls self func "on_error" st2 = (Ret (on_error w), st')
     ∧ EvConstruct (plugin_id plugin) step
         (schema self) (config self) (plugin_settings self) ∈ logged_since st st1
     ∧ EvConstruct (plugin_id plugin) step
         (schema self) (config self) (plugin_settings self) ∈ logged_since st1 st2
     ∧ EvConstruct (plugin_id plugin) step
         (schema self) (config self) (plugin_settings self) ∈ logged_since st2 st')
  ∧ (∀ cb, step_getattr on_step "enter" = Ret cb -> cb ∈ enter w)
  ∧ (∀ cb, step_getattr on_step "on_success" = Ret cb -> cb ∈ on_success w)
  ∧ (∀ cb, step_getattr on_step "on_error" = Ret cb -> cb ∈ on_error w)
  ∧ Forall (fun ev => is_construct ev = false)
      (logged_since st0 (snd (wrapper (invoke validators depth) w args st0))).
Proof.
  intros Hstep Hin Hattr Hctor Hcall.
  unfold Plug_call, prepare_enter, prepare_on_success, prepare_on_error,
    bind, ret in Hcall.
  destruct (gather_calls self func "enter" st) as [[en|e] st1] eqn:H1;
    [|discriminate Hcall].
  destruct (gather_calls self func "on_success" st1) as [[su|e] st2] eqn:H2;
    [|discriminate Hcall].
  destruct (gather_calls self func "on_error" st2) as [[er|e] st3] eqn:H3;
    [|discriminate Hcall].
  injection Hcall as <- <-. cbn [enter on_success on_error].
  destruct (gather_calls_resolved _ _ _ _ _ _ _ _ _ _ Hstep Hin Hattr Hctor H1)
    as [Hc1 Hm1].
  destruct (gather_calls_resolved _ _ _ _ _ _ _ _ _ _ Hstep Hin Hattr Hctor H2)
    as [Hc2 Hm2].
  destruct (gather_calls_resolved _ _ _ _ _ _ _ _ _ _ Hstep Hin Hattr Hctor H3)
    as [Hc3 Hm3].
  split; [by exists st1, st2|].
  split; [exact Hm1|]. split; [exact Hm2|]. split; [exact Hm3|].
  apply wrapper_logs_no_construct. intros callback args'. apply preserves_invoke.
Qed.

(** ** The tracking key *)

(** C4, as the code has it.  The key of a triple is the qualified name of
    the callback resolved for it, a function of the callback alone and so
    the same on every invocation; and while a callback is in flight another
    resolved callback is held back by the guard exactly when the two have
    the same qualified name, whichever observers, entry points and slots
    they were resolved for. *)
Theorem key_is_qualname
    (validators : nat -> Validator) (depth : nat) (self : Plug)
    (f1 f2 : Func) (s1 s2 : string) (p1 p2 : Plugin) (step1 step2 : string)
    (cb1 cb2 : Callback) (args args' : list pyobj) (st : State) :
  EVENTS !! func_name f1 = Some step1 ->
  resolve self step1 s1 p1 = Ret cb1 ->
  EVENTS !! func_name f2 = Some step2 ->
  resolve self step2 s2 p2 = Ret cb2 ->
  qualname cb2 ∉ in_call st ->
  triple_key self f1 s1 p1 = Some (qualname cb1)
  ∧ triple_key self f2 s2 p2 = Some (qualname cb2)
  ∧ (run_callbacks (invoke validators depth) [cb2] args' (entered cb1 args st)
     = (Ret tt, entered cb1 args st)
     ↔ qualname cb1 = qualname cb2).
Proof.
  intros He1 Hr1 He2 Hr2 Hfree.
  split; [unfold triple_key; by rewrite He1, Hr1|].
  split; [unfold triple_key; by rewrite He2, Hr2|].
  split.
  - intros Hrun. destruct (decide (qualname cb1 = qualname cb2)) as [|Hne]; [done|].
    exfalso.
    assert (qualname cb2 ∉ in_call (entered cb1 args st)) as Hfree'.
    { unfold entered. cbn [in_call]. rewrite elem_of_union, elem_of_singleton.
      intros [|]; congruence. }
    rewrite run_callbacks_cons_free in Hrun by exact Hfree'.
    pose proof (preserves_invoke validators depth cb2 args'
                  (entered cb2 args' (entered cb1 args st))) as [_ (n & Hlog & _)].
    assert (∀ st2 : State,
              log st2 = log (entered cb2 args' (entered cb1 args st)) ++ n ->
              log st2 ≠ log (entered cb1 args st)) as Hlonger.
    { intros st2 H2 Heq. apply (f_equal length) in Heq. rewrite H2 in Heq.
      cbn [entered log] in Heq. rewrite !length_app in Heq. cbn in Heq. lia. }
    destruct (invoke validators depth cb2 args' _) as [[v|e] st2];
      cbn [snd] in Hlog; specialize (Hlonger _ Hlog);
      destruct (bool_decide _);
      apply (f_equal (fun r => log (snd r))) in Hrun;
      cbn [run_callbacks ret snd released log] in Hrun; by apply Hlonger.
  - intros Heq. rewrite run_callbacks_cons_busy; [reflexivity|].
    unfold entered. cbn [in_call]. apply elem_of_union. left.
    by apply elem_of_singleton.
Qed.

(** * The concrete process *)

(** ** What the guard leaves behind when a callback raises *)

(** C1, on the code.  A callback whose body raises: the phase is over, no
    callback is executing, and its key is still in the in-flight set,
    whether the exception was swallowed ([NotImplementedError]) or left the
    phase ([ValueError]). *)
Theorem key_stays_in_flight_after_raise :
  fst (run_callbacks (Scenario.run []) [Scenario.partial_enter] [PyData 5]
         initial_state) = Ret tt
  ∧ log (snd (run_callbacks (Scenario.run []) [Scenario.partial_enter] [PyData 5]
                initial_state))
    = [EvCall Scenario.partial_enter [PyData 5]]
  ∧ "Partial.enter" ∈
      in_call (snd (run_callbacks (Scenario.run []) [Scenario.partial_enter]
                      [PyData 5] initial_state))
  ∧ fst (run_callbacks (Scenario.run []) [Scenario.strict_enter] [PyData 5]
           initial_state) = Raise (Exc ValueError 2)
  ∧ "Strict.enter" ∈
      in_call (snd (run_callbacks (Scenario.run []) [Scenario.strict_enter]
                      [PyData 5] initial_state)).
Proof.
  split; [reflexivity|]. split; [reflexivity|].
  split; [compute_done|]. split; [reflexivity | compute_done].
Qed.

(** C2, on the code.  An observer whose [enter] raises
    [NotImplementedError]: the first wrapped call invokes it, swallows the
    signal, calls the engine and runs [on_success]; the second wrapped call
    does not invoke [enter] at all, because its key was left in flight. *)
Theorem not_implemented_skip_is_permanent :
  fst (wrapper (Scenario.run [Scenario.partial_plugin])
         (Scenario.python_wrapper [Scenario.partial_plugin]) [PyData 5]
         initial_state) = Ret (PyData 5)
  ∧ log (snd (wrapper (Scenario.run [Scenario.partial_plugin])
                (Scenario.python_wrapper [Scenario.partial_plugin]) [PyData 5]
                initial_state))
    = [EvCall Scenario.partial_enter [PyData 5];
       EvEngine "validate_python" [PyData 5];
       EvCall Scenario.partial_on_success [PyData 5]]
  ∧ fst (wrapper (Scenario.run [Scenario.partial_plugin])
           (Scenario.python_wrapper [Scenario.partial_plugin]) [PyData 5]
           (snd (wrapper (Scenario.run [Scenario.partial_plugin])
                   (Scenario.python_wrapper [Scenario.partial_plugin]) [PyData 5]
                   initial_state))) = Ret (PyData 5)
  ∧ logged_since
      (snd (wrapper (Scenario.run [Scenario.partial_plugin])
              (Scenario.python_wrapper [Scenario.partial_plugin]) [PyData 5]
              initial_state))
      (snd (wrapper (Scenario.run [Scenario.partial_plugin])
              (Scenario.python_wrapper [Scenario.partial_plugin]) [PyData 5]
              (snd (wrapper (Scenario.run [Scenario.partial_plugin])
                      (Scenario.python_wrapper [Scenario.partial_plugin])
                      [PyData 5] initial_state))))
    = [EvEngine "validate_python" [PyData 5];
       EvCall Scenario.partial_on_success [PyData 5]].
Proof. repeat split; reflexivity. Qed.

(** ** Where the stated claims fail *)

(** C4, as stated, fails: two distinct observers that share a step class
    resolve to callbacks with one and the same key. *)
Lemma twin_observers_share_a_key :
  ¬ keys_distinct_per_triple
      (Scenario.the_plug [Scenario.tracer_plugin; Scenario.tracer_twin]).
Proof.
  intros Hdistinct.
  apply (Hdistinct Scenario.tracer_plugin Scenario.tracer_twin
           Scenario.engine_python Scenario.engine_python "enter" "enter"
           "Tracer.enter" "Tracer.enter").
  - left.
  - right. left.
  - intros Heq. discriminate Heq.
  - reflexivity.
  - reflexivity.
  - reflexivity.
Qed.

(** C7, as stated, fails: a wrapped call of a validator whose observer
    implements the event invokes the callbacks and constructs no step. *)
Lemma wrapped_call_constructs_no_step :
  Scenario.python_wrapper [Scenario.tracer_plugin]
  = mkWrapper Scenario.engine_python [Scenario.tracer_enter]
      [Scenario.tracer_on_success] [mkCallback "Tracer.on_error" Scenario.returns]
  ∧ logged_since initial_state
      (snd (wrapper (Scenario.run [Scenario.tracer_plugin])
              (Scenario.python_wrapper [Scenario.tracer_plugin]) [PyData 5]
              initial_state))
    = [EvCall Scenario.tracer_enter [PyData 5];
       EvEngine "validate_python" [PyData 5];
       EvCall Scenario.tracer_on_success [PyData 5];
       EvEngine "validate_python" [PyData 5];
       EvCall Scenario.tracer_on_success [PyData 5]]
  ∧ ¬ constructs_step_per_call (Scenario.run [Scenario.tracer_plugin])
        (Scenario.python_wrapper [Scenario.tracer_plugin]) [PyData 5]
        initial_state.
Proof.
  split; [reflexivity|].
  assert (logged_since initial_state
            (snd (wrapper (Scenario.run [Scenario.tracer_plugin])
                    (Scenario.python_wrapper [Scenario.tracer_plugin]) [PyData 5]
                    initial_state))
          = [EvCall Scenario.tracer_enter [PyData 5];
             EvEngine "validate_python" [PyData 5];
             EvCall Scenario.tracer_on_success [PyData 5];
             EvEngine "validate_python" [PyData 5];
             EvCall Scenario.tracer_on_success [PyData 5]]) as Hlog
    by reflexivity.
  split; [exact Hlog|].
  unfold constructs_step_per_call. rewrite Hlog. intros (ev & Hin & Hc).
  repeat (apply elem_of_cons in Hin as [->|Hin]; [discriminate Hc|]).
  by apply not_elem_of_nil in Hin.
Qed.


(** ** The general statements at work *)

(** While [Tracer.enter] is in flight, a phase that reaches it skips it and
    still runs the callback after it. *)
Lemma reentrancy_skip_continues_witness :
  run_callbacks (Scenario.run [])
    ([Scenario.quiet_enter] ++ Scenario.tracer_enter :: [Scenario.partial_enter])
    [PyData 5] (mkState {["Tracer.enter"]} [])
  = run_callbacks (Scenario.run []) [Scenario.partial_enter] [PyData 5]
      (mkState {["Tracer.enter"]} [EvCall Scenario.quiet_enter [PyData 5]]).
Proof.
  apply (reentrancy_skip_continues (Scenario.run [])
           [Scenario.quiet_enter] Scenario.tracer_enter [Scenario.partial_enter]
           [PyData 5] (mkState {["Tracer.enter"]} [])
           (mkState {["Tracer.enter"]} [EvCall Scenario.quiet_enter [PyData 5]])).
  - vm_compute. reflexivity.
  - apply (bool_decide_unpack _). vm_compute. exact I.
Defined.

(** [Strict.enter] raises [ValueError]: the phase raises it and
    [Tracer.enter], which comes after, is not run. *)
Lemma callback_failure_propagates_witness :
  run_callbacks (Scenario.run [])
    ([Scenario.quiet_enter] ++ Scenario.strict_enter :: [Scenario.tracer_enter])
    [PyData 5] initial_state
  = (Raise (Exc ValueError 2),
     mkState {["Strict.enter"]}
       [EvCall Scenario.quiet_enter [PyData 5];
        EvCall Scenario.strict_enter [PyData 5]]).
Proof.
  apply (callback_failure_propagates (Scenario.run [])
           [Scenario.quiet_enter] Scenario.strict_enter [Scenario.tracer_enter]
           [PyData 5] initial_state
           (mkState ∅ [EvCall Scenario.quiet_enter [PyData 5]])).
  - vm_compute. reflexivity.
  - apply (bool_decide_unpack _). vm_compute. exact I.
  - vm_compute. reflexivity.
  - discriminate.
Defined.




(** The observer [tracer_plugin]: its steps are built when
    [validate_python] is wrapped, and a call builds none. *)
Lemma steps_built_when_wrapped_witness :
  Scenario.tracer_enter ∈ enter (Scenario.python_wrapper [Scenario.tracer_plugin])
  ∧ Forall (fun ev => is_construct ev = false)
      (logged_since initial_state
         (snd (wrapper (Scenario.run [Scenario.tracer_plugin])
                 (Scenario.python_wrapper [Scenario.tracer_plugin]) [PyData 5]
                 initial_state))).
Proof.
  destruct (steps_built_when_wrapped
              (fun _ => Scenario.validator_of [Scenario.tracer_plugin]) 8
              (Scenario.the_plug [Scenario.tracer_plugin]) Scenario.engine_python
              "on_validate_python" Scenario.tracer_plugin Scenario.Tracer
              Scenario.tracer_step initial_state
              (snd (Plug_call (Scenario.the_plug [Scenario.tracer_plugin])
                      Scenario.engine_python initial_state))
              (Scenario.python_wrapper [Scenario.tracer_plugin])
              [PyData 5] initial_state)
    as (_ & Henter & _ & _ & Hcall).
  - vm_compute. reflexivity.
  - left.
  - reflexivity.
  - reflexivity.
  - vm_compute. reflexivity.
  - split; [apply Henter; reflexivity | exact Hcall].
Defined.

(** The callbacks of the twin observers have the same qualified name: while
    the one is in flight the other is held back. *)
Lemma key_is_qualname_witness :
  run_callbacks (Scenario.run []) [Scenario.tracer_enter] [PyData 6]
    (entered Scenario.tracer_enter [PyData 5] initial_state)
  = (Ret tt, entered Scenario.tracer_enter [PyData 5] initial_state).
Proof.
  apply (key_is_qualname (fun _ => Scenario.validator_of []) 8
           (Scenario.the_plug [Scenario.tracer_plugin; Scenario.tracer_twin])
           Scenario.engine_python Scenario.engine_python "enter" "enter"
           Scenario.tracer_plugin Scenario.tracer_twin
           "on_validate_python" "on_validate_python"
           Scenario.tracer_enter Scenario.tracer_enter [PyData 5] [PyData 6]
           initial_state).
  - vm_compute. reflexivity.
  - reflexivity.
  - vm_compute. reflexivity.
  - reflexivity.
  - apply (bool_decide_unpack _). vm_compute. exact I.
  - reflexivity.
Defined.

(** * Further properties of the code *)

(** ** [gather_calls] and [_Plug.__call__], exactly *)

Lemma omap_length_le {A B} (f : A -> option B) (l : list A) :
  (length (omap f l) ≤ length l)%nat.
Proof.
  induction l as [|a l IH]; cbn; [lia|]. destruct (f a); cbn; lia.
Qed.

Lemma logged_nil st : logged [] st = st.
Proof. destruct st. unfold logged. cbn. by rewrite app_nil_r. Qed.

Lemma logged_logged a b st : logged b (logged a st) = logged (a ++ b) st.
Proof. unfold logged. cbn. by rewrite app_assoc. Qed.

Lemma constructions_cons self step plugin ps :
  constructions self step (plugin :: ps)
  = constructions self step [plugin] ++ constructions self step ps.
Proof.
  unfold constructions. cbn. by destruct (plugin_getattr plugin step).
Qed.

Lemma constructions_app self step ps qs :
  constructions self step (ps ++ qs)
  = constructions self step ps ++ constructions self step qs.
Proof.
  induction ps as [|p ps IH]; [done|]. cbn [app].
  by rewrite constructions_cons, IH, (constructions_cons _ _ p ps), app_assoc.
Qed.

Lemma construct_logged_eq self step plugin st :
  construct_logged self step plugin st
  = logged (constructions self step [plugin]) st.
Proof.
  unfold construct_logged, constructions. cbn.
  destruct (plugin_getattr plugin step); [done | by rewrite logged_nil].
Qed.

(** A loop that completes has consulted every plugin once. *)
Lemma gather_loop_eq self step callback_type ps calls calls' st :
  collect self step callback_type ps calls = Ret calls' ->
  gather_loop self step callback_type ps calls st
  = (Ret calls', logged (constructions self step ps) st).
Proof.
  revert calls st. induction ps as [|plugin rest IH]; intros calls st Hc.
  - cbn in Hc. injection Hc as <-. cbn. by rewrite logged_nil.
  - cbn [gather_loop collect] in *. unfold bind.
    rewrite gather_one_eq, (constructions_cons _ _ plugin rest), construct_logged_eq.
    destruct (resolve self step callback_type plugin) as [cb|e].
    + cbv beta iota. by rewrite (IH _ _ Hc), logged_logged.
    + destruct (skipped_quietly e); [|discriminate Hc].
      cbv beta iota. by rewrite (IH _ _ Hc), logged_logged.
Qed.

Lemma collect_resolved self step callback_type ps calls calls' :
  collect self step callback_type ps calls = Ret calls' ->
  calls' = calls ++ resolved self step callback_type ps.
Proof.
  revert calls. induction ps as [|plugin rest IH]; intros calls Hc.
  - cbn in Hc. injection Hc as <-. by rewrite app_nil_r.
  - cbn [collect] in Hc. unfold resolved. cbn [omap list_omap].
    fold (resolved self step callback_type rest).
    destruct (resolve self step callback_type plugin) as [cb|e].
    + rewrite (IH _ Hc). cbn. by rewrite <- app_assoc.
    + destruct (skipped_quietly e); [|discriminate Hc]. by apply IH.
Qed.

(** A loop that meets an exception it does not swallow stops there. *)
Lemma gather_loop_abort self step callback_type pre plugin post calls calls1 e st :
  collect self step callback_type pre calls = Ret calls1 ->
  resolve self step callback_type plugin = Raise e ->
  skipped_quietly e = false ->
  gather_loop self step callback_type (pre ++ plugin :: post) calls st
  = (Raise e, logged (constructions self step (pre ++ [plugin])) st).
Proof.
  intros Hpre Hres Hskip. revert calls st Hpre.
  induction pre as [|p pre IH]; intros calls st Hpre.
  - cbn [app gather_loop]. unfold bind.
    by rewrite gather_one_eq, Hres, Hskip, construct_logged_eq.
  - cbn [app gather_loop collect] in *. unfold bind.
    rewrite gather_one_eq, construct_logged_eq,
      (constructions_cons _ _ p (pre ++ [plugin])).
    destruct (resolve self step callback_type p) as [cb|e'].
    + cbv beta iota. by rewrite (IH _ _ Hpre), logged_logged.
    + destruct (skipped_quietly e'); [|discriminate Hpre].
      cbv beta iota. by rewrite (IH _ _ Hpre), logged_logged.
Qed.

(** X1.  A callable whose name is neither [validate_json] nor
    [validate_python] cannot be wrapped: [gather_calls], and so
    [_Plug.__call__], raises [RuntimeError] before any plugin is looked at,
    whatever the plugins are, even with none. *)
Theorem unknown_event_is_an_error
    (self : Plug) (func : Func) (callback_type : string) (st : State) :
  func_name func ≠ "validate_json" ->
  func_name func ≠ "validate_python" ->
  gather_calls self func callback_type st = (Raise (Exc RuntimeError 0), st)
  ∧ Plug_call self func st = (Raise (Exc RuntimeError 0), st).
Proof.
  intros Hj Hp.
  assert (EVENTS !! func_name func = None) as Hnone.
  { unfold EVENTS. rewrite lookup_insert_ne by done.
    rewrite lookup_insert_ne by done. apply lookup_empty. }
  assert (∀ slot, gather_calls self func slot st = (Raise (Exc RuntimeError 0), st))
    as Hg.
  { intros slot. unfold gather_calls. by rewrite Hnone. }
  split; [apply Hg|].
  unfold Plug_call, prepare_enter, bind. by rewrite Hg.
Qed.

(** X2.  A plugin whose turn ends in an exception other than
    [AttributeError] and [TypeError], after plugins whose turns did not,
    ends [gather_calls] with that exception: the plugins up to it have been
    consulted, those after it have not, and nothing is returned.  When this
    happens for the [enter] slot, [_Plug.__call__] ends the same way. *)
Theorem factory_error_aborts_gathering
    (self : Plug) (func : Func) (step callback_type : string)
    (pre : list Plugin) (plugin : Plugin) (post : list Plugin)
    (calls1 : list Callback) (e : exn) (st : State) :
  EVENTS !! func_name func = Some step ->
  plugins self = pre ++ plugin :: post ->
  collect self step callback_type pre [] = Ret calls1 ->
  resolve self step callback_type plugin = Raise e ->
  exc_class e ∉ [AttributeError; TypeError] ->
  gather_calls self func callback_type st
  = (Raise e, logged (constructions self step (pre ++ [plugin])) st)
  ∧ (callback_type = "enter" ->
     Plug_call self func st
     = (Raise e, logged (constructions self step (pre ++ [plugin])) st)).
Proof.
  intros Hstep Hps Hpre Hres Hclass.
  assert (skipped_quietly e = false) as Hskip
    by (by apply bool_decide_eq_false_2).
  assert (gather_calls self func callback_type st
          = (Raise e, logged (constructions self step (pre ++ [plugin])) st))
    as Hg.
  { unfold gather_calls. rewrite Hstep, Hps.
    by apply (gather_loop_abort _ _ _ _ _ _ _ calls1). }
  split; [exact Hg|]. intros ->.
  unfold Plug_call, prepare_enter, bind. by rewrite Hg.
Qed.

(** X3.  A [gather_calls] that returns has collected exactly the callbacks
    its plugins resolve to, in the iteration order of the plugins, at most
    one for each plugin, and has called the factory of every plugin that
    has the attribute of the event exactly once, in that order. *)
Theorem gather_calls_collects_in_order
    (self : Plug) (func : Func) (step callback_type : string)
    (calls : list Callback) (st st' : State) :
  EVENTS !! func_name func = Some step ->
  gather_calls self func callback_type st = (Ret calls, st') ->
  calls = resolved self step callback_type (plugins self)
  ∧ st' = logged (constructions self step (plugins self)) st
  ∧ (length calls ≤ length (plugins self))%nat.
Proof.
  intros Hstep Hrun.
  pose proof (gather_calls_fst self func callback_type st) as Hfst.
  rewrite Hrun, Hstep in Hfst. cbn [fst] in Hfst. symmetry in Hfst.
  unfold gather_calls in Hrun. rewrite Hstep, (gather_loop_eq _ _ _ _ _ _ _ Hfst) in Hrun.
  injection Hrun as <-.
  apply collect_resolved in Hfst. cbn [app] in Hfst.
  split; [exact Hfst|]. split; [done|].
  rewrite Hfst. unfold resolved. apply omap_length_le.
Qed.

Lemma EVENTS_validate_json : EVENTS !! "validate_json" = Some "on_validate_json".
Proof. by vm_compute. Qed.

Lemma EVENTS_validate_python :
  EVENTS !! "validate_python" = Some "on_validate_python".
Proof. by vm_compute. Qed.

Lemma gather_calls_ret self func step callback_type calls st st' :
  EVENTS !! func_name func = Some step ->
  gather_calls self func callback_type st = (Ret calls, st') ->
  calls = resolved self step callback_type (plugins self)
  ∧ st' = logged (constructions self step (plugins self)) st.
Proof.
  intros Hstep Hrun.
  pose proof (gather_calls_fst self func callback_type st) as Hfst.
  rewrite Hrun, Hstep in Hfst. cbn [fst] in Hfst. symmetry in Hfst.
  unfold gather_calls in Hrun.
  rewrite Hstep, (gather_loop_eq _ _ _ _ _ _ _ Hfst) in Hrun.
  injection Hrun as <-. by apply collect_resolved in Hfst.
Qed.

Lemma Plug_call_ret self func step w st st' :
  EVENTS !! func_name func = Some step ->
  Plug_call self func st = (Ret w, st') ->
  w = mkWrapper func
        (resolved self step "enter" (plugins self))
        (resolved self step "on_success" (plugins self))
        (resolved self step "on_error" (plugins self))
  ∧ st' = logged (constructions self step (plugins self)
                  ++ constructions self step (plugins self)
                  ++ constructions self step (plugins self)) st.
Proof.
  intros Hstep Hcall.
  unfold Plug_call, prepare_enter, prepare_on_success, prepare_on_error,
    bind, ret in Hcall.
  destruct (gather_calls self func "enter" st) as [[en|e] st1] eqn:H1;
    [|discriminate Hcall].
  destruct (gather_calls self func "on_success" st1) as [[su|e] st2] eqn:H2;
    [|discriminate Hcall].
  destruct (gather_calls self func "on_error" st2) as [[er|e] st3] eqn:H3;
    [|discriminate Hcall].
  injection Hcall as <- <-.
  destruct (gather_calls_ret _ _ _ _ _ _ _ Hstep H1) as [-> ->].
  destruct (gather_calls_ret _ _ _ _ _ _ _ Hstep H2) as [-> ->].
  destruct (gather_calls_ret _ _ _ _ _ _ _ Hstep H3) as [-> ->].
  split; [reflexivity|]. rewrite !logged_logged. by rewrite <- ?app_assoc.
Qed.

(** X4.  A [PluggableSchemaValidator] that has been built holds the engine
    that the constructor returned, and each of its two entry points wraps
    the engine's method of that name with exactly the callbacks the plugins
    resolve to for that event, slot by slot and in iteration order.
    Building it has called the factory of every plugin that has the
    attribute three times for each event, first for [validate_json], then
    for [validate_python], and has left the keys in flight alone. *)
Theorem built_validator_contents
    (new_SchemaValidator : CoreSchema -> option CoreConfig -> outcome SchemaValidator)
    (schema : CoreSchema) (config : option CoreConfig) (ps : list Plugin)
    (plugin_settings : option Settings) (p : PluggableSchemaValidator)
    (st st' : State) :
  PluggableSchemaValidator_init new_SchemaValidator schema config ps
    plugin_settings st = (Ret p, st') ->
  new_SchemaValidator schema config = Ret (schema_validator p)
  ∧ plug p = mkPlug schema config ps plugin_settings
  ∧ validate_json p
    = mkWrapper (bound_method (schema_validator p) call_validate_json)
        (resolved (plug p) "on_validate_json" "enter" ps)
        (resolved (plug p) "on_validate_json" "on_success" ps)
        (resolved (plug p) "on_validate_json" "on_error" ps)
  ∧ validate_python p
    = mkWrapper (bound_method (schema_validator p) call_validate_python)
        (resolved (plug p) "on_validate_python" "enter" ps)
        (resolved (plug p) "on_validate_python" "on_success" ps)
        (resolved (plug p) "on_validate_python" "on_error" ps)
  ∧ st' = logged (constructions (plug p) "on_validate_json" ps
                  ++ constructions (plug p) "on_validate_json" ps
                  ++ constructions (plug p) "on_validate_json" ps
                  ++ constructions (plug p) "on_validate_python" ps
                  ++ constructions (plug p) "on_validate_python" ps
                  ++ constructions (plug p) "on_validate_python" ps) st.
Proof.
  intros Hinit.
  unfold PluggableSchemaValidator_init, bind, lift, ret in Hinit.
  destruct (new_SchemaValidator schema config) as [sv|e]; [|discriminate Hinit].
  destruct (Plug_call _ (bound_method sv call_validate_json) st)
    as [[wj|e] st1] eqn:Hj; [|discriminate Hinit].
  destruct (Plug_call _ (bound_method sv call_validate_python) st1)
    as [[wp|e] st2] eqn:Hp; [|discriminate Hinit].
  injection Hinit as <- <-. cbn [schema_validator plug validate_json validate_python].
  destruct (Plug_call_ret _ (bound_method sv call_validate_json) _ _ _ _
              EVENTS_validate_json Hj) as [-> ->].
  destruct (Plug_call_ret _ (bound_method sv call_validate_python) _ _ _ _
              EVENTS_validate_python Hp) as [-> ->].
  unfold Plug_init. cbn [default plugins].
  repeat (split; [reflexivity|]).
  rewrite logged_logged. by rewrite <- ?app_assoc.
Qed.

(** X5.  When the constructor of the engine raises, the factory raises the
    same exception whatever plugins are loaded, before any of them is
    looked at: the state is untouched. *)
Theorem engine_failure_comes_first
    (new_SchemaValidator : CoreSchema -> option CoreConfig -> outcome SchemaValidator)
    (loaded_plugins : list Plugin) (schema : CoreSchema)
    (config : option CoreConfig) (plugin_settings : option Settings)
    (e : exn) (st : State) :
  new_SchemaValidator schema config = Raise e ->
  create_schema_validator new_SchemaValidator loaded_plugins schema config
    plugin_settings st = (Raise e, st)
  ∧ PluggableSchemaValidator_init new_SchemaValidator schema config
      loaded_plugins plugin_settings st = (Raise e, st).
Proof.
  intros Hnew.
  assert (PluggableSchemaValidator_init new_SchemaValidator schema config
            loaded_plugins plugin_settings st = (Raise e, st)) as Hinit.
  { unfold PluggableSchemaValidator_init, bind, lift. by rewrite Hnew. }
  split; [|exact Hinit].
  unfold create_schema_validator. destruct loaded_plugins as [|q qs].
  - unfold bind, lift. by rewrite Hnew.
  - unfold bind. by rewrite Hinit.
Qed.

(** ** What a wrapped call can and cannot do *)

(** X8.  A call of a validator, wrapped or not and at any depth, never
    releases a key that was in flight when it started and never invokes a
    callback with such a key, however the call ends. *)
Theorem in_flight_keys_are_kept
    (validators : nat -> Validator) (depth : nat)
    (v : Validator) (m : Method) (args : list pyobj) (st : State)
    (key : string) :
  key ∈ in_call st ->
  key ∈ in_call (snd (Validator_call (invoke validators depth) v m args st))
  ∧ ∀ cb args',
      qualname cb = key ->
      EvCall cb args' ∉
        logged_since st (snd (Validator_call (invoke validators depth) v m args st)).
Proof.
  intros Hkey.
  destruct (preserves_Validator_call _ (preserves_invoke validators depth)
              v m args st) as [Hsub (new & Hlog & Hq)].
  split; [by apply Hsub|].
  intros cb args' Hcb Hev. rewrite (logged_since_app _ _ _ Hlog) in Hev.
  rewrite Forall_forall in Hq. apply (Hq _ Hev). cbn [quiet]. by rewrite Hcb.
Qed.

(** ** Phases of callbacks that simply return *)

Lemma released_entered callback args st :
  qualname callback ∉ in_call st ->
  released callback (entered callback args st) = logged [EvCall callback args] st.
Proof.
  intros Hfree. unfold released, entered, logged. cbn [in_call log]. f_equal.
  apply set_eq. intros key.
  rewrite elem_of_difference, elem_of_union, elem_of_singleton.
  split; [tauto|]. intros Hkey. split; [by right | by intros ->].
Qed.

Lemma run_callbacks_quiet (invoke : Callback -> list pyobj -> Py pyobj)
    callbacks args st :
  (∀ cb, cb ∈ callbacks -> returns_quietly invoke cb) ->
  (∀ cb, cb ∈ callbacks -> qualname cb ∉ in_call st) ->
  run_callbacks invoke callbacks args st
  = (Ret tt, logged (calls_of callbacks args) st).
Proof.
  revert st. induction callbacks as [|callback rest IH]; intros st Hquiet Hfree.
  - cbn. by rewrite logged_nil.
  - rewrite run_callbacks_cons_free by (apply Hfree; left).
    destruct (Hquiet callback ltac:(left) args (entered callback args st))
      as [v ->].
    rewrite bool_decide_eq_true_2.
    + rewrite released_entered by (apply Hfree; left).
      rewrite IH.
      * by rewrite logged_logged.
      * intros cb Hcb. apply Hquiet. by right.
      * intros cb Hcb. cbn [logged in_call]. apply Hfree. by right.
    + unfold entered. cbn [in_call]. apply elem_of_union. left.
      by apply elem_of_singleton.
Qed.

(** X9.  The trace of an accepted input.  When the callbacks of the [enter]
    and [on_success] phases are free and simply return, a wrapped call that
    the engine accepts invokes the [enter] callbacks in order with the
    arguments of the call, then the engine, then the [on_success] callbacks
    in order with the result, and nothing else; it returns the result and
    leaves the keys in flight as they were.  No [on_error] callback runs,
    whatever it would do. *)
Theorem trace_of_accepted_input
    (invoke : Callback -> list pyobj -> Py pyobj)
    (w : Wrapper) (args : list pyobj) (st : State) (result : pyobj) :
  (∀ cb, cb ∈ enter w ++ on_success w ->
     returns_quietly invoke cb ∧ qualname cb ∉ in_call st) ->
  func_call (w_func w) args = Ret result ->
  wrapper invoke w args st
  = (Ret result,
     logged (calls_of (enter w) args
             ++ [EvEngine (func_name (w_func w)) args]
             ++ calls_of (on_success w) [result]) st).
Proof.
  intros Hcbs Hfunc.
  assert (run_callbacks invoke (enter w) args st
          = (Ret tt, logged (calls_of (enter w) args) st)) as Henter.
  { apply run_callbacks_quiet; intros cb Hcb; apply Hcbs, elem_of_app; by left. }
  rewrite (wrapper_success _ _ _ _ _ _ Henter Hfunc).
  rewrite run_callbacks_quiet.
  - unfold engine_called, logged. cbn [in_call log]. by rewrite <- !app_assoc.
  - intros cb Hcb. apply Hcbs, elem_of_app. by right.
  - intros cb Hcb. cbn [engine_called logged in_call]. apply Hcbs, elem_of_app.
    by right.
Qed.

(** X10.  The trace of a rejected input.  When the callbacks of the [enter]
    and [on_error] phases are free and simply return, a wrapped call whose
    engine raises a [ValidationError] invokes the [enter] callbacks in order
    with the arguments of the call, then the engine, then the [on_error]
    callbacks in order with the error, and nothing else; it raises that
    error and leaves the keys in flight as they were.  No [on_success]
    callback runs, whatever it would do. *)
Theorem trace_of_rejected_input
    (invoke : Callback -> list pyobj -> Py pyobj)
    (w : Wrapper) (args : list pyobj) (st : State) (error : exn) :
  (∀ cb, cb ∈ enter w ++ on_error w ->
     returns_quietly invoke cb ∧ qualname cb ∉ in_call st) ->
  func_call (w_func w) args = Raise error ->
  exc_class error = ValidationError ->
  wrapper invoke w args st
  = (Raise error,
     logged (calls_of (enter w) args
             ++ [EvEngine (func_name (w_func w)) args]
             ++ calls_of (on_error w) [PyError error]) st).
Proof.
  intros Hcbs Hfunc Hclass.
  assert (run_callbacks invoke (enter w) args st
          = (Ret tt, logged (calls_of (enter w) args) st)) as Henter.
  { apply run_callbacks_quiet; intros cb Hcb; apply Hcbs, elem_of_app; by left. }
  rewrite (wrapper_validation_error _ _ _ _ _ _ Henter Hfunc Hclass).
  rewrite run_callbacks_quiet.
  - unfold engine_called, logged. cbn [in_call log]. by rewrite <- !app_assoc.
  - intros cb Hcb. apply Hcbs, elem_of_app. by right.
  - intros cb Hcb. cbn [engine_called logged in_call]. apply Hcbs, elem_of_app.
    by right.
Qed.

(** ** Observers that implement one slot only *)

Lemma resolved_nil self step callback_type ps :
  (∀ p, p ∈ ps -> ∃ e, resolve self step callback_type p = Raise e) ->
  resolved self step callback_type ps = [].
Proof.
  induction ps as [|p ps IH]; intros Hall; [done|].
  unfold resolved. cbn [omap list_omap]. fold (resolved self step callback_type ps).
  destruct (Hall p ltac:(left)) as [e ->]. apply IH.
  intros q Hq. apply Hall. by right.
Qed.

(** X11.  When no plugin resolves to an [enter] or an [on_error] callback
    for the event (the steps have [on_success] only, say), the wrapper that
    [_Plug.__call__] builds invokes nothing on an input the engine does not
    return for: it calls the engine and raises what the engine raised. *)
Theorem success_only_observers_idle_on_failure
    (invoke : Callback -> list pyobj -> Py pyobj)
    (self : Plug) (func : Func) (step : string) (w : Wrapper)
    (st st' : State) (args : list pyobj) (st0 : State) (error : exn) :
  EVENTS !! func_name func = Some step ->
  Plug_call self func st = (Ret w, st') ->
  (∀ p, p ∈ plugins self -> ∃ e, resolve self step "enter" p = Raise e) ->
  (∀ p, p ∈ plugins self -> ∃ e, resolve self step "on_error" p = Raise e) ->
  func_call func args = Raise error ->
  wrapper invoke w args st0
  = (Raise error, logged [EvEngine (func_name func) args] st0).
Proof.
  intros Hstep Hcall Henter Herror Hfunc.
  destruct (Plug_call_ret _ _ _ _ _ _ Hstep Hcall) as [-> _].
  rewrite (resolved_nil _ _ _ _ Henter), (resolved_nil _ _ _ _ Herror).
  unfold wrapper, bind at 1. cbn [enter run_callbacks ret w_func on_error].
  unfold try_except_else, call_func, bind at 1, emit, lift. rewrite Hfunc.
  unfold logged. by destruct (bool_decide _).
Qed.

(** X12.  When no plugin resolves to an [enter] or an [on_success] callback
    for the event (the steps have [on_error] only, say), the wrapper that
    [_Plug.__call__] builds invokes nothing on an input the engine accepts:
    it calls the engine and returns its result. *)
Theorem error_only_observers_idle_on_success
    (invoke : Callback -> list pyobj -> Py pyobj)
    (self : Plug) (func : Func) (step : string) (w : Wrapper)
    (st st' : State) (args : list pyobj) (st0 : State) (result : pyobj) :
  EVENTS !! func_name func = Some step ->
  Plug_call self func st = (Ret w, st') ->
  (∀ p, p ∈ plugins self -> ∃ e, resolve self step "enter" p = Raise e) ->
  (∀ p, p ∈ plugins self -> ∃ e, resolve self step "on_success" p = Raise e) ->
  func_call func args = Ret result ->
  wrapper invoke w args st0
  = (Ret result, logged [EvEngine (func_name func) args] st0).
Proof.
  intros Hstep Hcall Henter Hsuccess Hfunc.
  destruct (Plug_call_ret _ _ _ _ _ _ Hstep Hcall) as [-> _].
  rewrite (resolved_nil _ _ _ _ Henter), (resolved_nil _ _ _ _ Hsuccess).
  unfold wrapper, bind at 1. cbn [enter run_callbacks ret w_func on_success].
  unfold try_except_else, call_func, bind at 1, emit, lift. rewrite Hfunc.
  reflexivity.
Qed.

(** ** The guard bounds the nesting of callbacks *)

Open Scope nat_scope.

Lemma room_le (keys busy busy' : gset string) :
  busy ⊆ busy' -> size (keys ∖ busy') ≤ size (keys ∖ busy).
Proof.
  intros Hsub. apply subseteq_size. intros key.
  rewrite !elem_of_difference. intros [Hkey Hfree]. split; [exact Hkey|].
  intros Hbusy. by apply Hfree, Hsub.
Qed.

Lemma room_entered (keys : gset string) callback args st :
  qualname callback ∈ keys ->
  qualname callback ∉ in_call st ->
  size (keys ∖ in_call (entered callback args st)) < size (keys ∖ in_call st).
Proof.
  intros Hkey Hfree. apply subset_size. unfold entered. cbn [in_call]. split.
  - intros key. rewrite !elem_of_difference, elem_of_union.
    intros [Hin Hout]. split; [exact Hin|]. intros Hbusy. apply Hout. by right.
  - intros Hsub.
    assert (qualname callback ∈ keys ∖ ({[qualname callback]} ∪ in_call st)) as Hin
      by (apply Hsub, elem_of_difference; by split).
    apply elem_of_difference in Hin as [_ Hout]. apply Hout, elem_of_union.
    left. by apply elem_of_singleton.
Qed.

Section Agreement.

Variable keys : gset string.
Variables f g : Callback -> list pyobj -> Py pyobj.
Variable n : nat.
Hypothesis f_preserves : ∀ callback args, preserves (f callback args).
Hypothesis agree :
  ∀ callback args st, size (keys ∖ in_call st) < n -> f callback args st = g callback args st.

Lemma run_callbacks_agree callbacks args st :
  (∀ cb, cb ∈ callbacks -> qualname cb ∈ keys) ->
  size (keys ∖ in_call st) ≤ n ->
  run_callbacks f callbacks args st = run_callbacks g callbacks args st.
Proof.
  revert st. induction callbacks as [|callback rest IH]; intros st Hkeys Hroom.
  - reflexivity.
  - assert (∀ cb, cb ∈ rest -> qualname cb ∈ keys) as Hrest
      by (intros cb Hcb; apply Hkeys; by right).
    destruct (decide (qualname callback ∈ in_call st)) as [Hin|Hout].
    + rewrite !run_callbacks_cons_busy by exact Hin. by apply IH.
    + rewrite !run_callbacks_cons_free by exact Hout.
      pose proof (room_entered keys callback args st (Hkeys _ ltac:(left)) Hout)
        as Hless.
      pose proof (f_preserves callback args (entered callback args st)) as Hbody.
      assert (step_ok st (snd (f callback args (entered callback args st))))
        as Hst2
        by (eapply step_ok_trans; [by apply step_ok_entered | exact Hbody]).
      rewrite <- (agree callback args (entered callback args st)) by lia.
      destruct (f callback args (entered callback args st)) as [[v|e] st2];
        cbn [snd] in Hst2; destruct (bool_decide _); try reflexivity.
      * apply IH; [exact Hrest|].
        pose proof (step_ok_released callback st st2 Hout Hst2) as [Hsub _].
        pose proof (room_le keys _ _ Hsub). lia.
      * apply IH; [exact Hrest|].
        destruct Hst2 as [Hsub _]. pose proof (room_le keys _ _ Hsub). lia.
Qed.

Lemma wrapper_agree w args st :
  (∀ cb, cb ∈ enter w ++ on_success w ++ on_error w -> qualname cb ∈ keys) ->
  size (keys ∖ in_call st) ≤ n ->
  wrapper f w args st = wrapper g w args st.
Proof.
  intros Hkeys Hroom.
  pose proof (preserves_run_callbacks f f_preserves (enter w) args st) as [Hsub _].
  unfold wrapper, bind, try_except_else, call_func, bind, emit, lift, ret, raise.
  rewrite <- (run_callbacks_agree (enter w) args st);
    [|intros cb Hcb; apply Hkeys, elem_of_app; by left|exact Hroom].
  destruct (run_callbacks f (enter w) args st) as [[[]|e] st1]; [|reflexivity].
  cbn [snd] in Hsub.
  assert (size (keys ∖ in_call st1) ≤ n) as Hroom1
    by (pose proof (room_le keys _ _ Hsub); lia).
  destruct (func_call (w_func w) args) as [r|error].
  - rewrite (run_callbacks_agree (on_success w)); [reflexivity| |exact Hroom1].
    intros cb Hcb. apply Hkeys. rewrite !elem_of_app. right. by left.
  - destruct (bool_decide _); [|reflexivity].
    rewrite (run_callbacks_agree (on_error w)); [reflexivity| |exact Hroom1].
    intros cb Hcb. apply Hkeys. rewrite !elem_of_app. right. by right.
Qed.

Lemma Validator_call_agree v m args st :
  (∀ cb, cb ∈ callbacks_of v m -> qualname cb ∈ keys) ->
  size (keys ∖ in_call st) ≤ n ->
  Validator_call f v m args st = Validator_call g v m args st.
Proof.
  intros Hkeys Hroom. destruct v as [sv|p]; [reflexivity|].
  cbn [Validator_call]. by apply wrapper_agree.
Qed.

Lemma exec_agree validators c st :
  keys_within keys validators ->
  size (keys ∖ in_call st) ≤ n ->
  exec validators f c st = exec validators g c st.
Proof.
  intros Hkeys. revert st.
  induction c as [v|e|v m args k IH]; intros st Hroom; cbn [exec];
    [reflexivity | reflexivity |].
  pose proof (preserves_Validator_call f f_preserves (validators v) m args st)
    as [Hsub _].
  rewrite <- (Validator_call_agree (validators v) m args st);
    [|intros cb; apply Hkeys|exact Hroom].
  destruct (Validator_call f (validators v) m args st) as [r st1].
  cbn [snd] in Hsub. apply IH.
  pose proof (room_le keys _ _ Hsub). lia.
Qed.

End Agreement.

(** X13.  The guard bounds how deep callbacks nest.  Let [keys] hold the
    keys of all the callbacks of the process.  A callback run with a call
    stack deeper than the number of keys that are not in flight ends the
    same way, in the same state, with any deeper stack; so does a call of a
    validator when the stack is at least that deep.  A callback that
    validates again from inside therefore cannot recurse without end. *)
Theorem guard_bounds_nesting
    (keys : gset string) (validators : nat -> Validator) (depth : nat)
    (callback : Callback) (v : Validator) (m : Method)
    (args : list pyobj) (st : State) (extra : nat) :
  keys_within keys validators ->
  (size (keys ∖ in_call st) < depth ->
   invoke validators (depth + extra) callback args st
   = invoke validators depth callback args st)
  ∧ ((∀ cb, cb ∈ callbacks_of v m -> qualname cb ∈ keys) ->
     size (keys ∖ in_call st) ≤ depth ->
     Validator_call (invoke validators (depth + extra)) v m args st
     = Validator_call (invoke validators depth) v m args st).
Proof.
  intros Hkeys.
  assert (∀ d cb a s, size (keys ∖ in_call s) < d ->
            invoke validators d cb a s = invoke validators (S d) cb a s) as Hstep.
  { induction d as [|d IH]; intros cb a s Hroom; [lia|].
    change (exec validators (invoke validators d) (body cb a) s
            = exec validators (invoke validators (S d)) (body cb a) s).
    apply (exec_agree keys _ _ d).
    - intros cb' a'. apply preserves_invoke.
    - exact IH.
    - exact Hkeys.
    - lia. }
  assert (∀ x d cb a s, size (keys ∖ in_call s) < d ->
            invoke validators (d + x) cb a s = invoke validators d cb a s) as Hmore.
  { induction x as [|x IH]; intros d cb a s Hroom.
    - by rewrite Nat.add_0_r.
    - rewrite Nat.add_succ_r, <- Hstep by lia. by apply IH. }
  split; [apply Hmore|].
  intros Hv Hroom. symmetry.
  apply (Validator_call_agree keys _ _ depth).
  - intros cb' a'. apply preserves_invoke.
  - intros cb a s Hs. symmetry. by apply Hmore.
  - exact Hv.
  - exact Hroom.
Qed.

(** ** A plug without plugins *)

(** X14.  A [_Plug] made without plugins ([plugins=None]) wraps a known
    entry point into a wrapper with no callbacks, consulting nothing, and
    calling that wrapper is calling the entry point. *)
Theorem plug_without_plugins_is_transparent
    (schema : CoreSchema) (config : option CoreConfig)
    (plugin_settings : option Settings) (func : Func) (step : string)
    (st : State) :
  EVENTS !! func_name func = Some step ->
  Plug_call (Plug_init schema config None plugin_settings) func st
  = (Ret (mkWrapper func [] [] []), st)
  ∧ ∀ invoke args st0,
      wrapper invoke (mkWrapper func [] [] []) args st0 = call_func func args st0.
Proof.
  intros Hstep. split.
  - unfold Plug_call, prepare_enter, prepare_on_success, prepare_on_error,
      gather_calls, bind. rewrite Hstep. reflexivity.
  - intros invoke args st0.
    unfold wrapper, bind, try_except_else, call_func, bind, emit, lift.
    cbn [enter on_success on_error w_func run_callbacks ret].
    destruct (func_call func args) as [r|e]; [reflexivity|].
    by destruct (bool_decide _).
Qed.

(** ** A callback that is not implemented for this call *)

(** X15.  A callback that the guard admits and whose body raises
    [NotImplementedError] stops nothing: the phase goes on with the
    callbacks after it, from the state the body left, and a wrapped call
    whose [enter] phase holds it proceeds as the call with only the
    callbacks after it does from that state. *)
Theorem not_implemented_lets_the_call_proceed
    (invoke : Callback -> list pyobj -> Py pyobj)
    (pre : list Callback) (callback : Callback) (post : list Callback)
    (args : list pyobj) (st st1 st2 : State) (e : exn) :
  run_callbacks invoke pre args st = (Ret tt, st1) ->
  qualname callback ∉ in_call st1 ->
  invoke callback args (entered callback args st1) = (Raise e, st2) ->
  exc_class e = NotImplementedError ->
  run_callbacks invoke (pre ++ callback :: post) args st
  = run_callbacks invoke post args st2
  ∧ ∀ w, enter w = pre ++ callback :: post ->
      wrapper invoke w args st
      = wrapper invoke (mkWrapper (w_func w) post (on_success w) (on_error w))
          args st2.
Proof.
  intros Hpre Hfree Hbody Hclass.
  pose proof (not_implemented_is_swallowed invoke pre callback post args
                st st1 st2 e Hpre Hfree Hbody Hclass) as Hphase.
  split; [exact Hphase|].
  intros w Hw. unfold wrapper, bind. cbn [enter w_func on_success on_error].
  by rewrite Hw, Hphase.
Qed.

(** * The further properties at work *)

Lemma unknown_event_is_an_error_witness :
  Plug_call (Scenario.the_plug [Scenario.tracer_plugin]) Cases.engine_assignment
    initial_state
  = (Raise (Exc RuntimeError 0), initial_state).
Proof.
  apply (unknown_event_is_an_error (Scenario.the_plug [Scenario.tracer_plugin])
           Cases.engine_assignment "enter" initial_state).
  - discriminate.
  - discriminate.
Defined.

Lemma factory_error_aborts_gathering_witness :
  gather_calls
    (Scenario.the_plug
       [Scenario.quiet_plugin; Cases.broken_plugin; Scenario.tracer_plugin])
    Scenario.engine_python "enter" initial_state
  = (Raise (Exc ValueError 5),
     mkState ∅
       [EvConstruct 5 "on_validate_python" 7%Z None None;
        EvConstruct 7 "on_validate_python" 7%Z None None]).
Proof.
  apply (factory_error_aborts_gathering
           (Scenario.the_plug
              [Scenario.quiet_plugin; Cases.broken_plugin; Scenario.tracer_plugin])
           Scenario.engine_python "on_validate_python" "enter"
           [Scenario.quiet_plugin] Cases.broken_plugin [Scenario.tracer_plugin]
           [Scenario.quiet_enter] (Exc ValueError 5) initial_state).
  - vm_compute. reflexivity.
  - reflexivity.
  - reflexivity.
  - reflexivity.
  - apply (bool_decide_unpack _). vm_compute. exact I.
Defined.

Lemma gather_calls_collects_in_order_witness :
  [Scenario.tracer_enter; Scenario.quiet_enter]
  = resolved
      (Scenario.the_plug
         [Scenario.tracer_plugin; Scenario.legacy_plugin; Scenario.quiet_plugin])
      "on_validate_python" "enter"
      [Scenario.tracer_plugin; Scenario.legacy_plugin; Scenario.quiet_plugin].
Proof.
  apply (gather_calls_collects_in_order
           (Scenario.the_plug
              [Scenario.tracer_plugin; Scenario.legacy_plugin; Scenario.quiet_plugin])
           Scenario.engine_python "on_validate_python" "enter"
           [Scenario.tracer_enter; Scenario.quiet_enter] initial_state
           (mkState ∅
              [EvConstruct 1 "on_validate_python" 7%Z None None;
               EvConstruct 6 "on_validate_python" 7%Z None None;
               EvConstruct 5 "on_validate_python" 7%Z None None])).
  - vm_compute. reflexivity.
  - vm_compute. reflexivity.
Defined.

Lemma built_validator_contents_witness :
  validate_python Cases.tracer_validator
  = mkWrapper (bound_method (schema_validator Cases.tracer_validator)
                 call_validate_python)
      (resolved (plug Cases.tracer_validator) "on_validate_python" "enter"
         [Scenario.tracer_plugin])
      (resolved (plug Cases.tracer_validator) "on_validate_python" "on_success"
         [Scenario.tracer_plugin])
      (resolved (plug Cases.tracer_validator) "on_validate_python" "on_error"
         [Scenario.tracer_plugin]).
Proof.
  apply (built_validator_contents Scenario.new_engine 7%Z None
           [Scenario.tracer_plugin] None Cases.tracer_validator initial_state
           (mkState ∅
              [EvConstruct 1 "on_validate_python" 7%Z None None;
               EvConstruct 1 "on_validate_python" 7%Z None None;
               EvConstruct 1 "on_validate_python" 7%Z None None])).
  vm_compute. reflexivity.
Defined.

Lemma engine_failure_comes_first_witness :
  create_schema_validator Cases.rejecting_engine [Scenario.tracer_plugin]
    7%Z None None initial_state
  = (Raise (Exc ValueError 9), initial_state).
Proof.
  apply (engine_failure_comes_first Cases.rejecting_engine
           [Scenario.tracer_plugin] 7%Z None None (Exc ValueError 9)
           initial_state).
  reflexivity.
Defined.

Lemma in_flight_keys_are_kept_witness :
  "Tracer.enter" ∈
    in_call (snd (Validator_call
                    (invoke (fun _ => Scenario.validator_of [Scenario.tracer_plugin]) 8)
                    (Scenario.validator_of [Scenario.tracer_plugin])
                    call_validate_python [PyData 5]
                    (mkState {["Tracer.enter"]} []))).
Proof.
  apply (in_flight_keys_are_kept
           (fun _ => Scenario.validator_of [Scenario.tracer_plugin]) 8
           (Scenario.validator_of [Scenario.tracer_plugin])
           call_validate_python [PyData 5] (mkState {["Tracer.enter"]} [])
           "Tracer.enter").
  apply (bool_decide_unpack _). vm_compute. exact I.
Defined.

Lemma returns_run_quietly plugins name :
  returns_quietly (Scenario.run plugins) (mkCallback name Scenario.returns).
Proof. intros args st. exists PyNone. reflexivity. Qed.

Lemma trace_of_accepted_input_witness :
  wrapper (Scenario.run [Scenario.quiet_plugin])
    (Scenario.python_wrapper [Scenario.quiet_plugin]) [PyData 5] initial_state
  = (Ret (PyData 5),
     logged
       (calls_of [Scenario.quiet_enter] [PyData 5]
        ++ [EvEngine "validate_python" [PyData 5]]
        ++ calls_of [Cases.quiet_on_success] [PyData 5])
       initial_state).
Proof.
  apply (trace_of_accepted_input (Scenario.run [Scenario.quiet_plugin])
           (Scenario.python_wrapper [Scenario.quiet_plugin]) [PyData 5]
           initial_state (PyData 5)).
  - intros cb Hcb.
    change (cb ∈ [Scenario.quiet_enter; Cases.quiet_on_success]) in Hcb.
    apply elem_of_cons in Hcb as [->|Hcb];
      [|apply list_elem_of_singleton in Hcb as ->].
    + split; [apply returns_run_quietly|].
      apply (bool_decide_unpack _). vm_compute. exact I.
    + split; [apply returns_run_quietly|].
      apply (bool_decide_unpack _). vm_compute. exact I.
  - reflexivity.
Defined.

Lemma trace_of_rejected_input_witness :
  wrapper (Scenario.run [Scenario.quiet_plugin])
    (Scenario.python_wrapper [Scenario.quiet_plugin]) [PyData 6] initial_state
  = (Raise (Exc ValidationError 1),
     logged
       (calls_of [Scenario.quiet_enter] [PyData 6]
        ++ [EvEngine "validate_python" [PyData 6]]
        ++ calls_of [Scenario.quiet_on_error] [PyError (Exc ValidationError 1)])
       initial_state).
Proof.
  apply (trace_of_rejected_input (Scenario.run [Scenario.quiet_plugin])
           (Scenario.python_wrapper [Scenario.quiet_plugin]) [PyData 6]
           initial_state (Exc ValidationError 1)).
  - intros cb Hcb.
    change (cb ∈ [Scenario.quiet_enter; Scenario.quiet_on_error]) in Hcb.
    apply elem_of_cons in Hcb as [->|Hcb];
      [|apply list_elem_of_singleton in Hcb as ->].
    + split; [apply returns_run_quietly|].
      apply (bool_decide_unpack _). vm_compute. exact I.
    + split; [apply returns_run_quietly|].
      apply (bool_decide_unpack _). vm_compute. exact I.
  - reflexivity.
  - reflexivity.
Defined.

Lemma success_only_observers_idle_on_failure_witness :
  wrapper (Scenario.run [Cases.success_only_plugin])
    (mkWrapper Scenario.engine_python [] [Cases.audit_on_success] [])
    [PyData 6] initial_state
  = (Raise (Exc ValidationError 1),
     logged [EvEngine "validate_python" [PyData 6]] initial_state).
Proof.
  apply (success_only_observers_idle_on_failure
           (Scenario.run [Cases.success_only_plugin])
           (Scenario.the_plug [Cases.success_only_plugin])
           Scenario.engine_python "on_validate_python"
           (mkWrapper Scenario.engine_python [] [Cases.audit_on_success] [])
           initial_state
           (mkState ∅
              [EvConstruct 8 "on_validate_python" 7%Z None None;
               EvConstruct 8 "on_validate_python" 7%Z None None;
               EvConstruct 8 "on_validate_python" 7%Z None None])
           [PyData 6] initial_state (Exc ValidationError 1)).
  - vm_compute. reflexivity.
  - vm_compute. reflexivity.
  - intros p Hp. apply list_elem_of_singleton in Hp as ->.
    exists (Exc AttributeError 0). reflexivity.
  - intros p Hp. apply list_elem_of_singleton in Hp as ->.
    exists (Exc AttributeError 0). reflexivity.
  - reflexivity.
Defined.

Lemma error_only_observers_idle_on_success_witness :
  wrapper (Scenario.run [Cases.error_only_plugin])
    (mkWrapper Scenario.engine_python [] [] [Cases.alarm_on_error])
    [PyData 5] initial_state
  = (Ret (PyData 5),
     logged [EvEngine "validate_python" [PyData 5]] initial_state).
Proof.
  apply (error_only_observers_idle_on_success
           (Scenario.run [Cases.error_only_plugin])
           (Scenario.the_plug [Cases.error_only_plugin])
           Scenario.engine_python "on_validate_python"
           (mkWrapper Scenario.engine_python [] [] [Cases.alarm_on_error])
           initial_state
           (mkState ∅
              [EvConstruct 9 "on_validate_python" 7%Z None None;
               EvConstruct 9 "on_validate_python" 7%Z None None;
               EvConstruct 9 "on_validate_python" 7%Z None None])
           [PyData 5] initial_state (PyData 5)).
  - vm_compute. reflexivity.
  - vm_compute. reflexivity.
  - intros p Hp. apply list_elem_of_singleton in Hp as ->.
    exists (Exc AttributeError 0). reflexivity.
  - intros p Hp. apply list_elem_of_singleton in Hp as ->.
    exists (Exc AttributeError 0). reflexivity.
  - reflexivity.
Defined.

Lemma tracer_keys_within :
  keys_within Cases.tracer_keys
    (fun _ => Scenario.validator_of [Scenario.tracer_plugin]).
Proof.
  intros v m cb Hcb. destruct m.
  - change (cb ∈ @nil Callback) in Hcb. by apply not_elem_of_nil in Hcb.
  - change (cb ∈ [Scenario.tracer_enter; Scenario.tracer_on_success;
                  Cases.tracer_on_error]) in Hcb.
    repeat (apply elem_of_cons in Hcb as [->|Hcb];
            [apply (bool_decide_unpack _); vm_compute; exact I|]).
    by apply not_elem_of_nil in Hcb.
Qed.

Lemma guard_bounds_nesting_witness :
  invoke (fun _ => Scenario.validator_of [Scenario.tracer_plugin]) (4 + 3)
    Scenario.tracer_enter [PyData 5] initial_state
  = invoke (fun _ => Scenario.validator_of [Scenario.tracer_plugin]) 4
      Scenario.tracer_enter [PyData 5] initial_state.
Proof.
  apply (proj1 (guard_bounds_nesting Cases.tracer_keys
                  (fun _ => Scenario.validator_of [Scenario.tracer_plugin]) 4
                  Scenario.tracer_enter
                  (Scenario.validator_of [Scenario.tracer_plugin])
                  call_validate_python [PyData 5] initial_state 3
                  tracer_keys_within)).
  apply (bool_decide_unpack _). vm_compute. exact I.
Defined.

Lemma plug_without_plugins_is_transparent_witness :
  Plug_call (Plug_init 7%Z None None None) Scenario.engine_python initial_state
  = (Ret (mkWrapper Scenario.engine_python [] [] []), initial_state).
Proof.
  apply (plug_without_plugins_is_transparent 7%Z None None
           Scenario.engine_python "on_validate_python" initial_state).
  vm_compute. reflexivity.
Defined.

Lemma not_implemented_lets_the_call_proceed_witness :
  run_callbacks (Scenario.run [])
    ([Scenario.quiet_enter] ++ Scenario.partial_enter :: [Scenario.tracer_enter])
    [PyData 5] initial_state
  = run_callbacks (Scenario.run []) [Scenario.tracer_enter] [PyData 5]
      (mkState {["Partial.enter"]}
         [EvCall Scenario.quiet_enter [PyData 5];
          EvCall Scenario.partial_enter [PyData 5]]).
Proof.
  apply (not_implemented_lets_the_call_proceed (Scenario.run [])
           [Scenario.quiet_enter] Scenario.partial_enter [Scenario.tracer_enter]
           [PyData 5] initial_state
           (mkState ∅ [EvCall Scenario.quiet_enter [PyData 5]])
           (mkState {["Partial.enter"]}
              [EvCall Scenario.quiet_enter [PyData 5];
               EvCall Scenario.partial_enter [PyData 5]])
           (Exc NotImplementedError 0)).
  - vm_compute. reflexivity.
  - apply (bool_decide_unpack _). vm_compute. exact I.
  - vm_compute. reflexivity.
  - reflexivity.
Defined.
